(** * Shallow embedding of the nftopia analytics pipeline

    The embedded sources are [analytics/tasks.py] (the Celery tasks) and
    [analytics/models.py] (the model methods they call).  Django model rows
    become records, tables become lists (or a [gmap] when the table has a
    unique key), and [timezone.now()] is an explicit argument.  Python
    floats are modelled as exact rationals [Q].  Names that the two modules
    use without importing them ([models.Q], [List], [Dict], [os],
    [REPORT_TYPES]) are taken to resolve to what they evidently denote. *)

From Stdlib Require Import ZArith QArith Ascii String List Bool Lia.
From stdpp Require Import base gmap strings list.
From Stdlib Require Import Sorting.Sorted.

Open Scope Z_scope.

(** ** Python exceptions and the two loop shapes of tasks.py *)

Inductive exn : Type :=
| Exception (msg : string).

(** A loop body: the state after the (possibly partial) side effects, and
    the exception it raised, if any. *)
Definition body_result (S : Type) : Type := (S * option exn)%type.

(** What a loop did: the final state, the items whose body was entered, the
    items whose body ran to completion, and the exception that escaped. *)
Record loop_outcome (I S : Type) : Type := mk_loop_outcome {
  lo_state : S;
  lo_attempted : list I;
  lo_completed : list I;
  lo_escaped : option exn
}.
Arguments mk_loop_outcome {I S} _ _ _ _.
Arguments lo_state {I S} _.
Arguments lo_attempted {I S} _.
Arguments lo_completed {I S} _.
Arguments lo_escaped {I S} _.

Section Loops.
Context {I S : Type}.
Variable body : I -> S -> body_result S.

(** [for x in xs: try: body(x) except Exception: log] -- the shape of the
    due-report loop of [generate_scheduled_reports_task]. *)
Fixpoint for_each_guarded (xs : list I) (s : S) : loop_outcome I S :=
  match xs with
  | [] => mk_loop_outcome s [] [] None
  | x :: xs' =>
      let '(s1, e) := body x s in
      let r := for_each_guarded xs' s1 in
      mk_loop_outcome (lo_state r) (x :: lo_attempted r)
        (match e with None => x :: lo_completed r | Some _ => lo_completed r end)
        None
  end.

(** [try: for x in xs: body(x) except Exception: return error] -- the
    shape of the per-address loop of [update_user_behavior_profiles_task]
    and of the per-anomaly loop of [trigger_webhooks_task]: the first
    exception leaves the loop. *)
Fixpoint for_each_unguarded (xs : list I) (s : S) : loop_outcome I S :=
  match xs with
  | [] => mk_loop_outcome s [] [] None
  | x :: xs' =>
      let '(s1, e) := body x s in
      match e with
      | Some ex => mk_loop_outcome s1 [x] [] (Some ex)
      | None =>
          let r := for_each_unguarded xs' s1 in
          mk_loop_outcome (lo_state r) (x :: lo_attempted r)
            (x :: lo_completed r) (lo_escaped r)
      end
  end.
End Loops.

(** ** Python [datetime] *)

(** A naive datetime: the calendar date and the time of day (in
    microseconds); adding a [timedelta(days=k)] moves the date by [k]
    calendar days and keeps the time of day. *)
Record datetime : Type := mk_datetime {
  dt_year : Z;
  dt_month : Z;
  dt_day : Z;
  dt_time : Z
}.

Definition is_leap (y : Z) : bool :=
  (y mod 4 =? 0) && (negb (y mod 100 =? 0) || (y mod 400 =? 0)).

(** [_days_in_month] of CPython's datetime module. *)
Definition days_in_month (y m : Z) : Z :=
  if m =? 2 then (if is_leap y then 29 else 28)
  else if (m =? 4) || (m =? 6) || (m =? 9) || (m =? 11) then 30
  else 31.

Definition valid_date (d : datetime) : Prop :=
  1 <= dt_month d <= 12 /\ 1 <= dt_day d <= days_in_month (dt_year d) (dt_month d).

Definition next_day (d : datetime) : datetime :=
  let '(mk_datetime y m dd t) := d in
  if dd <? days_in_month y m then mk_datetime y m (dd + 1) t
  else if m <? 12 then mk_datetime y (m + 1) 1 t
  else mk_datetime (y + 1) 1 1 t.

Definition prev_day (d : datetime) : datetime :=
  let '(mk_datetime y m dd t) := d in
  if 1 <? dd then mk_datetime y m (dd - 1) t
  else if 1 <? m then mk_datetime y (m - 1) (days_in_month y (m - 1)) t
  else mk_datetime (y - 1) 12 31 t.

(** [d + timedelta(days=k)]. *)
Definition add_days (d : datetime) (k : Z) : datetime :=
  if 0 <=? k then Nat.iter (Z.to_nat k) next_day d
  else Nat.iter (Z.to_nat (- k)) prev_day d.

(** [d - timedelta(days=k)]. *)
Definition sub_days (d : datetime) (k : Z) : datetime := add_days d (- k).

(** [d.replace(day=n)] (valid for the [n = 28] used below in every month). *)
Definition replace_day (d : datetime) (n : Z) : datetime :=
  mk_datetime (dt_year d) (dt_month d) n (dt_time d).

(** Chronological order, [a <= b]. *)
Definition dt_le (a b : datetime) : bool :=
  (dt_year a <? dt_year b)
  || ((dt_year a =? dt_year b)
      && ((dt_month a <? dt_month b)
          || ((dt_month a =? dt_month b)
              && ((dt_day a <? dt_day b)
                  || ((dt_day a =? dt_day b) && (dt_time a <=? dt_time b)))))).

(** ** [AutomatedReport] (models.py) *)

Record AutomatedReport : Type := mk_report {
  report_id : nat;
  frequency : string;
  last_run : option datetime;
  next_run : datetime;
  is_active : bool
}.

Definition set_next_run (r : AutomatedReport) (n : datetime) : AutomatedReport :=
  mk_report (report_id r) (frequency r) (last_run r) n (is_active r).

Definition set_last_run (r : AutomatedReport) (l : datetime) : AutomatedReport :=
  mk_report (report_id r) (frequency r) (Some l) (next_run r) (is_active r).

(** [AutomatedReport.calculate_next_run]; [now] is [timezone.now()]. *)
Definition calculate_next_run (now : datetime) (self : AutomatedReport)
  : AutomatedReport :=
  match last_run self with
  | None => set_next_run self now
  | Some lr =>
      if String.eqb (frequency self) "daily" then set_next_run self (add_days lr 1)
      else if String.eqb (frequency self) "weekly" then set_next_run self (add_days lr 7)
      else if String.eqb (frequency self) "monthly" then
        let next_month := add_days (replace_day lr 28) 4 in
        set_next_run self (sub_days next_month (dt_day next_month - 1))
      else self
  end.

(** The filter of [generate_scheduled_reports_task]:
    [is_active=True, next_run__lte=now]. *)
Definition is_due (now : datetime) (r : AutomatedReport) : bool :=
  is_active r && dt_le (next_run r) now.

Definition due_reports (now : datetime) (rs : list AutomatedReport)
  : list AutomatedReport :=
  List.filter (is_due now) rs.

(** [report.save()]: the row with the same id is overwritten. *)
Definition save_report (r : AutomatedReport) (rs : list AutomatedReport)
  : list AutomatedReport :=
  map (fun x => if Nat.eqb (report_id x) (report_id r) then r else x) rs.

Section ScheduledReports.
(** [ReportGenerator.generate_report] is an external collaborator: all
    that matters here is whether it raises. *)
Variable generate_report : AutomatedReport -> option exn.

(** Body of the due-report loop: generate, then [last_run = now],
    [calculate_next_run()], [save()]. *)
Definition report_body (now : datetime) (report : AutomatedReport)
  (rs : list AutomatedReport) : body_result (list AutomatedReport) :=
  match generate_report report with
  | Some e => (rs, Some e)
  | None =>
      let report' := calculate_next_run now (set_last_run report now) in
      (save_report report' rs, None)
  end.

(** [generate_scheduled_reports_task]: the due reports are read once,
    then each is handled inside its own [try]. *)
Definition generate_scheduled_reports_task (now : datetime)
  (rs : list AutomatedReport) : loop_outcome AutomatedReport (list AutomatedReport) :=
  for_each_guarded (report_body now) (due_reports now rs) rs.
End ScheduledReports.

(** ** Behavior profiles ([update_user_behavior_profiles_task]) *)

(** Timestamps of transactions and anomalies are seconds since the epoch. *)
Definition seconds_per_day : Z := 86400.

(** The fields of [NFTTransaction] that the task reads; an empty address
    stands for a falsy one ([None] or [""]). *)
Record NFTTransaction : Type := mk_tx {
  buyer_address : string;
  seller_address : string;
  price : option Q;
  tx_timestamp : Z;
  nft_contract : string
}.

Record UserBehaviorProfile : Type := mk_profile {
  wallet_address : string;
  avg_transaction_value : Q;
  transaction_frequency : Q;
  total_transactions : nat;
  total_volume : Q;
  preferred_collections : list string;
  risk_score : Q;
  first_seen : Z;
  last_activity : Z
}.

(** The profile table, unique on [wallet_address]. *)
Abbreviation profiles := (gmap string UserBehaviorProfile).

(** Modelled from the spec: the [UserBehaviorProfile] model is not among
    the sources; [get_or_create] gives the fields other than [first_seen]
    and [last_activity] their zero defaults (spec section 3). *)
Definition default_profile (address : string) (now : Z) : UserBehaviorProfile :=
  mk_profile address 0%Q 0%Q 0%nat 0%Q [] 0%Q now now.

(** [UserBehaviorProfile.objects.get_or_create(wallet_address=address, ...)]. *)
Definition get_or_create (now : Z) (address : string) (ps : profiles)
  : UserBehaviorProfile * profiles :=
  match ps !! address with
  | Some p => (p, ps)
  | None => let p := default_profile address now in (p, <[address := p]> ps)
  end.

(** [if tx.buyer_address: ...; if tx.seller_address: ...] over the recent
    transactions, collecting into a set (kept here in insertion order). *)
Definition add_address (acc : list string) (a : string) : list string :=
  if String.eqb a "" then acc
  else if existsb (String.eqb a) acc then acc else acc ++ [a].

Definition recent_addresses (recent : list NFTTransaction) : list string :=
  fold_left (fun acc tx => add_address (add_address acc (buyer_address tx))
                                       (seller_address tx)) recent [].

(** [Q(buyer_address=address) | Q(seller_address=address)]. *)
Definition user_txs (txs : list NFTTransaction) (address : string)
  : list NFTTransaction :=
  List.filter (fun tx => String.eqb (buyer_address tx) address
                         || String.eqb (seller_address tx) address) txs.

(** [sum(float(tx.price or 0) for tx in user_txs)]. *)
Definition sum_prices (uts : list NFTTransaction) : Q :=
  fold_left (fun acc tx => Qplus acc (match price tx with Some q => q | None => 0%Q end))
    uts 0%Q.

(** The timestamps of [order_by('timestamp').first()] and [.last()]. *)
Definition first_timestamp (uts : list NFTTransaction) : option Z :=
  match uts with
  | [] => None
  | tx :: rest => Some (fold_left (fun m t => Z.min m (tx_timestamp t)) rest (tx_timestamp tx))
  end.

Definition last_timestamp (uts : list NFTTransaction) : option Z :=
  match uts with
  | [] => None
  | tx :: rest => Some (fold_left (fun m t => Z.max m (tx_timestamp t)) rest (tx_timestamp tx))
  end.

(** [collections[tx.nft_contract] += 1]: a dict, in insertion order. *)
Definition bump (c : string) (d : list (string * nat)) : list (string * nat) :=
  if existsb (fun kv => String.eqb (fst kv) c) d
  then map (fun kv => if String.eqb (fst kv) c then (fst kv, S (snd kv)) else kv) d
  else d ++ [(c, 1%nat)].

Definition count_collections (uts : list NFTTransaction) : list (string * nat) :=
  fold_left (fun d tx => bump (nft_contract tx) d) uts [].

(** [sorted(..., key=lambda x: x[1], reverse=True)]: a stable sort on the
    count, descending (equal counts keep their dict order). *)
Fixpoint insert_desc (x : string * nat) (l : list (string * nat))
  : list (string * nat) :=
  match l with
  | [] => [x]
  | y :: l' => if Nat.ltb (snd y) (snd x) then x :: y :: l' else y :: insert_desc x l'
  end.

Definition sort_by_count_desc (d : list (string * nat)) : list (string * nat) :=
  fold_left (fun acc x => insert_desc x acc) d [].

Definition Qltb (x y : Q) : bool := negb (Qle_bool y x).

(** Lines 172-184: the three risk contributions, added to [0.0]. *)
Definition risk_sum (frequency total_volume : Q) (n_preferred total_count : nat) : Q :=
  let r0 := 0%Q in
  let r1 := if Qltb 10 frequency then Qplus r0 (3 # 10) else r0 in
  let r2 := if Qltb 100 total_volume then Qplus r1 (2 # 10) else r1 in
  if Nat.leb n_preferred 2 && Nat.ltb 10 total_count then Qplus r2 (3 # 10) else r2.

(** Python's [min(a, b)]: [b] only when [b < a]. *)
Definition py_min (a b : Q) : Q := if Qltb b a then b else a.

(** The stored value, [min(risk_score, 1.0)]. *)
Definition risk_score_of (frequency total_volume : Q) (n_preferred total_count : nat) : Q :=
  py_min (risk_sum frequency total_volume n_preferred total_count) 1.

(** Lines 141-194: the profile recomputed from the address's transactions. *)
Definition recompute (now : Z) (profile : UserBehaviorProfile)
  (uts : list NFTTransaction) : UserBehaviorProfile :=
  let total_volume := sum_prices uts in
  let total_count := length uts in
  let avg_value := if Nat.ltb 0 total_count
                   then Qdiv total_volume (inject_Z (Z.of_nat total_count)) else 0%Q in
  let frequency :=
    match first_timestamp uts, last_timestamp uts with
    | Some f, Some l =>
        let days_active := (l - f) / seconds_per_day + 1 in
        if 0 <? days_active
        then Qdiv (inject_Z (Z.of_nat total_count)) (inject_Z days_active) else 0%Q
    | _, _ => 0%Q
    end in
  let preferred := firstn 5 (sort_by_count_desc (count_collections uts)) in
  mk_profile (wallet_address profile) avg_value frequency total_count total_volume
    (map fst preferred)
    (risk_score_of frequency total_volume (length preferred) total_count)
    (first_seen profile)
    (match last_timestamp uts with Some l => l | None => now end).

(** Body of the per-address loop.  [db_fails address] says whether the
    database raises on this address's [profile.save()] (for example an
    [IntegrityError] from a concurrent [get_or_create]). *)
Definition update_profile_body (db_fails : string -> bool) (now : Z)
  (txs : list NFTTransaction) (address : string) (ps : profiles)
  : body_result profiles :=
  let '(profile, ps1) := get_or_create now address ps in
  let uts := user_txs txs address in
  match uts with
  | [] => (ps1, None)
  | _ :: _ =>
      if db_fails address then (ps1, Some (Exception "database error"))
      else (<[address := recompute now profile uts]> ps1, None)
  end.

Definition recent_txs (now : Z) (txs : list NFTTransaction) : list NFTTransaction :=
  List.filter (fun tx => (now - 7 * seconds_per_day) <=? tx_timestamp tx) txs.

(** [update_user_behavior_profiles_task]: one [try] around the whole loop. *)
Definition update_user_behavior_profiles_task (db_fails : string -> bool)
  (now : Z) (txs : list NFTTransaction) (ps : profiles)
  : loop_outcome string profiles :=
  for_each_unguarded (update_profile_body db_fails now txs)
    (recent_addresses (recent_txs now txs)) ps.

(** A run in which the database never raises. *)
Definition no_db_faults : string -> bool := fun _ => false.

(** The seven profile fields the task overwrites. *)
Definition profile_fields (p : UserBehaviorProfile)
  : Q * Q * nat * Q * list string * Q * Z :=
  (avg_transaction_value p, transaction_frequency p, total_transactions p,
   total_volume p, preferred_collections p, risk_score p, last_activity p).

(** ** Anomalies, webhooks and their cleanup *)

(** Modelled from the spec: [AnomalyDetection], [AlertWebhook],
    [WebhookLog] and [WebhookService.send_anomaly_alert] are not among the
    sources.  Following spec sections 3 and 4.5, an anomaly has a
    [detected_at] and a [status], a log row records one delivery attempt per
    (anomaly, endpoint) pair with its outcome and time, and
    [send_anomaly_alert(anomaly)] attempts one delivery per active endpoint,
    logging the outcome of each (failures are logged outcomes, not raised). *)
Record AnomalyDetection : Type := mk_anomaly {
  anomaly_id : nat;
  detected_at : Z;
  status : string
}.

Record AlertWebhook : Type := mk_webhook {
  webhook_id : nat;
  webhook_active : bool
}.

Record WebhookLog : Type := mk_log {
  log_anomaly : nat;
  log_webhook : nat;
  sent_at : Z;
  outcome : string
}.

(** The tables the webhook pipeline reads and writes, and the trace of the
    anomalies handed to [send_anomaly_alert], in call order. *)
Record AlertStore : Type := mk_store {
  anomalies : list AnomalyDetection;
  webhooks : list AlertWebhook;
  webhook_logs : list WebhookLog;
  alerts_sent : list nat
}.

Section Webhooks.
(** The outcome of one HTTP delivery (success, failure or timeout). *)
Variable deliver : AlertWebhook -> AnomalyDetection -> string.

Definition send_anomaly_alert (now : Z) (anomaly : AnomalyDetection)
  (s : AlertStore) : AlertStore :=
  let attempts :=
    map (fun w => mk_log (anomaly_id anomaly) (webhook_id w) now (deliver w anomaly))
      (List.filter webhook_active (webhooks s)) in
  mk_store (anomalies s) (webhooks s) (webhook_logs s ++ attempts)
    (alerts_sent s ++ [anomaly_id anomaly]).

(** [AnomalyDetection.objects.filter(detected_at__gte=now - 5 min,
    status='pending')]. *)
Definition select_recent_pending (now : Z) (s : AlertStore)
  : list AnomalyDetection :=
  List.filter (fun a => ((now - 5 * 60) <=? detected_at a)
                        && String.eqb (status a) "pending") (anomalies s).

Definition send_body (now : Z) (anomaly : AnomalyDetection) (s : AlertStore)
  : body_result AlertStore :=
  (send_anomaly_alert now anomaly s, None).

(** The [for anomaly in recent_anomalies] loop over an already evaluated
    queryset. *)
Definition dispatch (now : Z) (sel : list AnomalyDetection) (s : AlertStore)
  : loop_outcome AnomalyDetection AlertStore :=
  for_each_unguarded (send_body now) sel s.

(** [trigger_webhooks_task]. *)
Definition trigger_webhooks_task (now : Z) (s : AlertStore)
  : loop_outcome AnomalyDetection AlertStore :=
  dispatch now (select_recent_pending now s) s.

(** Two runs of [trigger_webhooks_task] that both evaluate their query on
    the same snapshot before either of them sends. *)
Definition two_runs_same_snapshot (now1 now2 : Z) (s0 : AlertStore)
  : AlertStore :=
  let sel1 := select_recent_pending now1 s0 in
  let sel2 := select_recent_pending now2 s0 in
  lo_state (dispatch now2 sel2 (lo_state (dispatch now1 sel1 s0))).
End Webhooks.

(** [cleanup_old_data_task]; [now_anomalies] and [now_logs] are its two
    calls of [timezone.now()]. *)
Definition cleanup_old_data_task (now_anomalies now_logs : Z) (s : AlertStore)
  : AlertStore :=
  let cutoff_date := now_anomalies - 90 * seconds_per_day in
  let log_cutoff := now_logs - 30 * seconds_per_day in
  mk_store
    (List.filter (fun a => negb (detected_at a <? cutoff_date)) (anomalies s))
    (webhooks s)
    (List.filter (fun l => negb (sent_at l <? log_cutoff)) (webhook_logs s))
    (alerts_sent s).

(** ** [RetentionCohort.calculate_retention_rate] *)

Record RetentionCohort : Type := mk_cohort {
  total_users : Z;
  retained_users : Z;
  retention_rate : Q
}.

(** Python's [a / b] on ints: [ZeroDivisionError] ([None]) when [b = 0]. *)
Definition py_true_div (a b : Z) : option Q :=
  if b =? 0 then None else Some (Qdiv (inject_Z a) (inject_Z b)).

(** The updated row and the returned rate, or [None] if it raises. *)
Definition calculate_retention_rate (self : RetentionCohort)
  : option (RetentionCohort * Q) :=
  if 0 <? total_users self then
    match py_true_div (retained_users self) (total_users self) with
    | None => None
    | Some q =>
        let rate := Qmult q 100 in
        Some (mk_cohort (total_users self) (retained_users self) rate, rate)
    end
  else Some (mk_cohort (total_users self) (retained_users self) 0%Q, 0%Q).

(** ** Sessions and per-user metrics (models.py) *)

(** The datetimes of these models are microseconds since the epoch (UTC),
    and a [DurationField] holds its [timedelta] in microseconds. *)
Record UserSession : Type := mk_session {
  login_at : Z;
  logout_at : option Z;
  session_duration : option Z;
  session_is_active : bool
}.

(** [UserSession.calculate_duration]: the updated row and the returned
    duration; [now] is its call of [timezone.now()]. *)
Definition calculate_duration (now : Z) (self : UserSession) : UserSession * Z :=
  let d := match logout_at self with
           | Some lo => lo - login_at self
           | None => now - login_at self
           end in
  (mk_session (login_at self) (logout_at self) (Some d) (session_is_active self), d).

(** [UserSession.end_session]: the row it saves.  [now1] and [now2] are
    its own call of [timezone.now()] and the one inside
    [calculate_duration]. *)
Definition end_session (now1 now2 : Z) (self : UserSession) : UserSession :=
  let self1 := mk_session (login_at self) (Some now1) (session_duration self) false in
  fst (calculate_duration now2 self1).

Record WalletConnection : Type := mk_connection {
  wallet_provider : string;
  connection_status : string
}.

Record UserBehaviorMetrics : Type := mk_metrics {
  first_login : Z;
  last_login : Z;
  total_sessions : nat;
  total_session_time : Z;
  average_session_duration : Z;
  days_since_first_login : Z;
  is_returning_user : bool;
  preferred_wallet : string;
  successful_wallet_connections : nat;
  failed_wallet_connections : nat
}.

Definition microseconds_per_day : Z := 86400000000.

(** [dt.date()] of a UTC datetime, as a day number; subtracting two of
    them gives [(d1 - d2).days]. *)
Definition date_of (t : Z) : Z := t / microseconds_per_day.

(** [_divide_and_round] of CPython's datetime module: [a / b] rounded to
    the nearest integer, ties to even.  [timedelta / int] is
    [timedelta(microseconds=_divide_and_round(usec, n))]. *)
Definition divide_and_round (a b : Z) : Z :=
  let q := a / b in
  let r := 2 * (a mod b) in
  let greater_than_half := if 0 <? b then b <? r else r <? b in
  if greater_than_half || ((r =? b) && (q mod 2 =? 1)) then q + 1 else q.

(** [max(d, key=d.get)]: the scan keeps the first key seen with the
    largest value (a later key replaces it only if strictly larger);
    [None] stands for the [ValueError] of an empty dict. *)
Fixpoint max_entry (best : string * nat) (d : list (string * nat)) : string * nat :=
  match d with
  | [] => best
  | e :: d' => if Nat.ltb (snd best) (snd e) then max_entry e d' else max_entry best d'
  end.

Definition py_max_key (d : list (string * nat)) : option string :=
  match d with
  | [] => None
  | e :: d' => Some (fst (max_entry e d'))
  end.

(** [wallet_counts[provider] = wallet_counts.get(provider, 0) + 1]. *)
Definition count_providers (cs : list WalletConnection) : list (string * nat) :=
  fold_left (fun d c => bump (wallet_provider c) d) cs [].

(** [self.user.wallet_connections.filter(connection_status=status)]. *)
Definition connections_with (status : string) (cs : list WalletConnection)
  : list WalletConnection :=
  List.filter (fun c => String.eqb (connection_status c) status) cs.

Definition is_completed (s : UserSession) : bool :=
  match logout_at s with Some _ => true | None => false end.

(** [UserBehaviorMetrics.update_metrics]: the row it saves, from the
    user's sessions and wallet connections; [now] is [timezone.now()].
    The [calculate_duration()] calls change only the in-memory session
    objects, which are not saved. *)
Definition update_metrics (now : Z) (sessions : list UserSession)
  (wallet_connections : list WalletConnection) (self : UserBehaviorMetrics)
  : UserBehaviorMetrics :=
  match sessions with
  | [] => self
  | s0 :: rest =>
      let first_login := fold_left (fun m s => Z.min m (login_at s)) rest (login_at s0) in
      let last_login := fold_left (fun m s => Z.max m (login_at s)) rest (login_at s0) in
      let total_sessions := length sessions in
      let completed_sessions := List.filter is_completed sessions in
      let '(total_session_time, average_session_duration) :=
        match completed_sessions with
        | [] => (total_session_time self, average_session_duration self)
        | _ :: _ =>
            let total_time :=
              fold_left (fun acc s => acc + snd (calculate_duration now s))
                completed_sessions 0 in
            (total_time, divide_and_round total_time (Z.of_nat (length completed_sessions)))
        end in
      let days_since_first_login := date_of now - date_of first_login in
      let is_returning_user := Nat.ltb 1 total_sessions in
      let successes := connections_with "success" wallet_connections in
      let '(preferred_wallet, successful, failed) :=
        match successes with
        | [] => (preferred_wallet self, successful_wallet_connections self,
                 failed_wallet_connections self)
        | _ :: _ =>
            (* [py_max_key] is not [None] here: the dict has an entry for
               the provider of every success. *)
            (match py_max_key (count_providers successes) with
             | Some k => k
             | None => preferred_wallet self
             end,
             length successes,
             length (connections_with "failed" wallet_connections))
        end in
      mk_metrics first_login last_login total_sessions total_session_time
        average_session_duration days_since_first_login is_returning_user
        preferred_wallet successful failed
  end.

(** ** Duration columns of admin.py *)

(** What a display method returns: a fixed text, or the f-string
    [f"{hours:02d}:{minutes:02d}:{seconds:02d}"] given by its three
    numbers. *)
Inductive display_value : Type :=
| Text (s : string)
| HMS (hours minutes seconds : Z).

(** [int(d.total_seconds())], then the two [divmod]s.  [total_seconds()]
    is a float; for durations under a century it is close enough to
    [us / 10^6] that [int()] truncates it as [Z.quot]. *)
Definition hms_of (us : Z) : display_value :=
  let total_seconds := Z.quot us 1000000 in
  let hours := total_seconds / 3600 in
  let remainder := total_seconds mod 3600 in
  HMS hours (remainder / 60) (remainder mod 60).

(** [UserSessionAdmin.session_duration_display]: a zero [timedelta] is
    falsy, like [None]. *)
Definition session_duration_display (session_duration : option Z) : display_value :=
  match session_duration with
  | Some us => if us =? 0 then Text "Active" else hms_of us
  | None => Text "Active"
  end.


(** ** [cleanup_temp_files] (tasks.py) *)

(** [os.path.basename]: the part of the path after its last '/'. *)
Fixpoint basename_from (cur : string) (p : string) : string :=
  match p with
  | EmptyString => cur
  | String ch p' =>
      if Ascii.eqb ch "/"%char then basename_from EmptyString p'
      else basename_from (cur ++ String ch EmptyString) p'
  end.

Definition basename (p : string) : string := basename_from EmptyString p.

(** Python's [sub in s] on strings. *)
Fixpoint py_contains (sub s : string) : bool :=
  String.prefix sub s
  || match s with EmptyString => false | String _ s' => py_contains sub s' end.

(** The loop body: the set of existing files and [cleaned_count].
    [remove_fails path] says whether [os.remove(path)] raises. *)
Definition cleanup_body (remove_fails : string -> bool) (file_path : string)
  (st : gset string * nat) : body_result (gset string * nat) :=
  let '(fs, cleaned_count) := st in
  if bool_decide (file_path ∈ fs) && py_contains "temp_" (basename file_path) then
    if remove_fails file_path then (st, Some (Exception "remove failed"))
    else ((fs ∖ {[file_path]}, S cleaned_count), None)
  else (st, None).

(** [cleanup_temp_files]: the files left and the returned [files_cleaned]. *)
Definition cleanup_temp_files (remove_fails : string -> bool) (file_paths : list string)
  (fs : gset string) : gset string * nat :=
  lo_state (for_each_guarded (cleanup_body remove_fails) file_paths (fs, 0%nat)).

(** ** [RetentionCohortAdmin.retention_rate_display] (admin.py): the colour
    chosen for a stored rate. *)


(** ** Concrete inputs used by the examples below *)

(** Two sales between "alice" and "bob", one day apart. *)
Definition tx_alice_bob : NFTTransaction := mk_tx "alice" "bob" (Some 60%Q) 1000 "c1".
Definition tx_bob_alice : NFTTransaction := mk_tx "bob" "alice" (Some 50%Q) 90000 "c2".

(** Every endpoint answers with success. *)
Definition deliver_ok : AlertWebhook -> AnomalyDetection -> string :=
  fun _ _ => "success"%string.

Definition store_one_pending : AlertStore :=
  mk_store [mk_anomaly 1 0 "pending"] [mk_webhook 1 true] [] [].

(** ** Auxiliary definitions for the statements *)

(** The first day of the month after [d]'s month, at [d]'s time of day. *)
Definition first_of_next_month (d : datetime) : datetime :=
  if dt_month d <? 12
  then mk_datetime (dt_year d) (dt_month d + 1) 1 (dt_time d)
  else mk_datetime (dt_year d + 1) 1 1 (dt_time d).

(** The risk invariant of a stored profile: its [risk_score] is the
    clamped sum of the contributions of its own stored fields. *)
Definition risk_inv (p : UserBehaviorProfile) : Prop :=
  risk_score p = risk_score_of (transaction_frequency p) (total_volume p)
                   (length (preferred_collections p)) (total_transactions p).

(** The fields an address's profile is recomputed to. *)
Definition expected_fields (txs : list NFTTransaction) (a : string)
  : Q * Q * nat * Q * list string * Q * Z :=
  profile_fields (recompute 0 (default_profile a 0) (user_txs txs a)).

(** [collections.get(c)]: the value of the first entry with key [c]. *)
Fixpoint dict_get (d : list (string * nat)) (c : string) : option nat :=
  match d with
  | [] => None
  | (k, v) :: d' => if String.eqb k c then Some v else dict_get d' c
  end.

(** The number of transactions of [uts] on contract [c]. *)
Definition tx_count (uts : list NFTTransaction) (c : string) : nat :=
  length (List.filter (fun tx => String.eqb (nft_contract tx) c) uts).



(** What one run of [generate_scheduled_reports_task] at [now] leaves in a
    report's row: a due report whose generation succeeds gets
    [last_run = now] and its [calculate_next_run()]; every other row is as
    it was. *)
Definition report_after_run (generate_report : AutomatedReport -> option exn)
  (now : datetime) (r : AutomatedReport) : AutomatedReport :=
  if is_due now r then
    match generate_report r with
    | None => calculate_next_run now (set_last_run r now)
    | Some _ => r
    end
  else r.

(** The [choices] of the [frequency] field. *)
Definition frequency_choices : list string := ["daily"; "weekly"; "monthly"]%string.


(** Python's [f in file_paths and 'temp_' in os.path.basename(f) and
    os.remove(f) succeeds]: the files [cleanup_temp_files] deletes. *)
Definition deleted_by_cleanup (remove_fails : string -> bool) (file_paths : list string)
  (f : string) : Prop :=
  In f file_paths /\ py_contains "temp_" (basename f) = true /\ remove_fails f = false.

(** * Properties *)

(** ** Report scheduling *)

Lemma days_in_month_range (y m : Z) : 28 <= days_in_month y m <= 31.
Proof.
  unfold days_in_month.
  destruct (m =? 2); [destruct (is_leap y); lia|].
  destruct ((m =? 4) || (m =? 6) || (m =? 9) || (m =? 11)); lia.
Qed.

Lemma next_day_mid (y m dd t : Z) :
  dd < days_in_month y m -> next_day (mk_datetime y m dd t) = mk_datetime y m (dd + 1) t.
Proof.
  intros H; unfold next_day.
  destruct (Z.ltb_spec dd (days_in_month y m)); [reflexivity | lia].
Qed.

Lemma next_day_last (y m t : Z) :
  next_day (mk_datetime y m (days_in_month y m) t)
  = if m <? 12 then mk_datetime y (m + 1) 1 t else mk_datetime (y + 1) 1 1 t.
Proof. unfold next_day; rewrite Z.ltb_irrefl; reflexivity. Qed.

Lemma add_days_4 (d : datetime) :
  add_days d 4 = next_day (next_day (next_day (next_day d))).
Proof. reflexivity. Qed.

Lemma sub_days_to_first (y m dd t : Z) :
  1 <= dd <= 4 -> sub_days (mk_datetime y m dd t) (dd - 1) = mk_datetime y m 1 t.
Proof.
  intros H.
  assert (dd = 1 \/ dd = 2 \/ dd = 3 \/ dd = 4) as [-> | [-> | [-> | ->]]] by lia;
    reflexivity.
Qed.

(** The monthly branch of [calculate_next_run] lands on the first day of
    the month after [last_run]'s month, whatever the day of [last_run]. *)
Lemma monthly_step_first_of_next_month (d : datetime) :
  sub_days (add_days (replace_day d 28) 4)
           (dt_day (add_days (replace_day d 28) 4) - 1)
  = if dt_month d <? 12
    then mk_datetime (dt_year d) (dt_month d + 1) 1 (dt_time d)
    else mk_datetime (dt_year d + 1) 1 1 (dt_time d).
Proof.
  destruct d as [y m dd t]; rewrite add_days_4; unfold replace_day.
  cbn [dt_month dt_year dt_time].
  pose proof (days_in_month_range y m) as Hr.
  assert (days_in_month y m = 28 \/ days_in_month y m = 29 \/
          days_in_month y m = 30 \/ days_in_month y m = 31)
    as [E | [E | [E | E]]] by lia;
  repeat (rewrite next_day_mid by lia);
  first [ replace (28 + 1 + 1 + 1) with (days_in_month y m) by lia
        | replace (28 + 1 + 1) with (days_in_month y m) by lia
        | replace (28 + 1) with (days_in_month y m) by lia
        | replace 28 with (days_in_month y m) by lia ];
  rewrite next_day_last;
  destruct (m <? 12);
  repeat (rewrite next_day_mid
            by (match goal with |- _ < days_in_month ?a ?b =>
                  pose proof (days_in_month_range a b) end; lia));
  rewrite sub_days_to_first by (cbn; lia); reflexivity.
Qed.

(** C2 (code bug): for a monthly report with a [last_run], the
    [calculate_next_run] of models.py always sets [next_run] to the first
    day of the following month (not "one calendar month later"); with
    [last_run] = 2024-01-31 it gives 2024-02-01, not 2024-02-29, and with
    2024-01-15 it gives 2024-02-01, not 2024-02-15. *)
Theorem C2_monthly_next_run_is_first_of_next_month :
  (forall (now : datetime) (rid : nat) (d nr : datetime) (act : bool),
     next_run (calculate_next_run now (mk_report rid "monthly" (Some d) nr act))
     = first_of_next_month d) /\
  next_run (calculate_next_run (mk_datetime 2024 2 1 0)
              (mk_report 1 "monthly" (Some (mk_datetime 2024 1 31 0))
                 (mk_datetime 2024 1 31 0) true))
  = mk_datetime 2024 2 1 0 /\
  next_run (calculate_next_run (mk_datetime 2024 2 1 0)
              (mk_report 1 "monthly" (Some (mk_datetime 2024 1 15 0))
                 (mk_datetime 2024 1 15 0) true))
  = mk_datetime 2024 2 1 0.
Proof.
  split; [| split; reflexivity].
  intros now rid d nr act.
  exact (monthly_step_first_of_next_month d).
Qed.

(** C10: for a report with no [last_run], [calculate_next_run] sets
    [next_run] to the current time (whatever the frequency), so at any
    later (or equal) time [t] the report satisfies [next_run <= t] and is
    selected by [generate_scheduled_reports_task] exactly when it is
    active. *)
Theorem C10_no_last_run_next_run_is_now
  (now t : datetime) (rid : nat) (freq : string) (nr : datetime) (act : bool) :
  dt_le now t = true ->
  next_run (calculate_next_run now (mk_report rid freq None nr act)) = now /\
  dt_le (next_run (calculate_next_run now (mk_report rid freq None nr act))) t = true /\
  is_due t (calculate_next_run now (mk_report rid freq None nr act)) = act.
Proof.
  intros Hle; cbn.
  split; [reflexivity |].
  split; [exact Hle |].
  unfold is_due; cbn; rewrite Hle; apply andb_true_r.
Qed.

Lemma C10_no_last_run_next_run_is_now_witness :
  dt_le (mk_datetime 2024 3 1 0) (mk_datetime 2024 3 1 60) = true /\
  next_run (calculate_next_run (mk_datetime 2024 3 1 0)
              (mk_report 7 "weekly" None (mk_datetime 2030 1 1 0) true))
  = mk_datetime 2024 3 1 0 /\
  dt_le (next_run (calculate_next_run (mk_datetime 2024 3 1 0)
              (mk_report 7 "weekly" None (mk_datetime 2030 1 1 0) true)))
        (mk_datetime 2024 3 1 60) = true /\
  is_due (mk_datetime 2024 3 1 60)
    (calculate_next_run (mk_datetime 2024 3 1 0)
       (mk_report 7 "weekly" None (mk_datetime 2030 1 1 0) true)) = true.
Proof.
  split; [reflexivity |].
  apply (C10_no_last_run_next_run_is_now (mk_datetime 2024 3 1 0)
           (mk_datetime 2024 3 1 60) 7 "weekly" (mk_datetime 2030 1 1 0) true).
  reflexivity.
Defined.

(** ** Retention cohorts *)

(** C5: [calculate_retention_rate] never raises; it stores and returns
    [(retained_users / total_users) * 100] when [total_users > 0] and
    exactly [0] when [total_users = 0]; 50 retained out of 200 gives 25. *)
Theorem C5_retention_rate_formula :
  (forall c : RetentionCohort,
     exists (c' : RetentionCohort) (rate : Q),
       calculate_retention_rate c = Some (c', rate) /\
       retention_rate c' = rate /\
       (0 < total_users c ->
          rate = Qmult (Qdiv (inject_Z (retained_users c)) (inject_Z (total_users c))) 100) /\
       (total_users c = 0 -> rate = 0%Q)) /\
  (forall r0 : Q,
     exists (c' : RetentionCohort) (rate : Q),
       calculate_retention_rate (mk_cohort 200 50 r0) = Some (c', rate) /\
       retention_rate c' = rate /\ Qeq rate 25).
Proof.
  split.
  - intros [tu ru rr]; unfold calculate_retention_rate, py_true_div; cbn.
    destruct (Z.ltb_spec 0 tu) as [Hpos | Hnpos].
    + assert (Hne : (tu =? 0) = false) by (apply Z.eqb_neq; lia).
      rewrite Hne.
      eexists; eexists; split; [reflexivity |].
      cbn; split; [reflexivity |]; split; [reflexivity | lia].
    + eexists; eexists; split; [reflexivity |].
      cbn; split; [reflexivity |]; split; [lia | reflexivity].
  - intros r0; eexists; eexists; split; [reflexivity |].
    split; [reflexivity | reflexivity].
Qed.

(** ** Risk score *)

(** C9: with frequency 11 tx/day, volume 150, two preferred collections
    and 15 transactions, all three contributions apply and the stored
    score is [min(0.3 + 0.2 + 0.3, 1.0) = 0.8]. *)
Theorem C9_risk_score_example :
  risk_score_of (inject_Z 11) (inject_Z 150) 2 15
  = py_min (Qplus (Qplus (Qplus 0 (3 # 10)) (2 # 10)) (3 # 10)) 1 /\
  Qeq (risk_score_of (inject_Z 11) (inject_Z 150) 2 15) (8 # 10).
Proof. split; reflexivity. Qed.

(** ** Facts about the loop shapes *)

Section UnguardedLoopFacts.
Context {I S : Type}.
Variable body : I -> S -> body_result S.

Lemma unguarded_completed_in (xs : list I) (s : S) (a : I) :
  In a (lo_completed (for_each_unguarded body xs s)) -> In a xs.
Proof.
  revert s; induction xs as [| x xs IH]; intros s; cbn; [tauto |].
  destruct (body x s) as [s1 [e |]]; cbn; [tauto |].
  intros [-> | H]; [left; reflexivity | right; exact (IH s1 H)].
Qed.

Lemma unguarded_total (xs : list I) (s : S) :
  (forall x s', snd (body x s') = None) ->
  lo_completed (for_each_unguarded body xs s) = xs /\
  lo_escaped (for_each_unguarded body xs s) = None.
Proof.
  intros Hok; revert s; induction xs as [| x xs IH]; intros s; cbn; [auto |].
  specialize (Hok x s) as Hx.
  destruct (body x s) as [s1 e]; cbn in Hx; subst e; cbn.
  destruct (IH s1) as [-> ->]; auto.
Qed.

Variable Inv : S -> Prop.

(** An invariant kept by every body run on an item of the loop is kept
    by the loop, whether or not an exception escapes. *)
Lemma unguarded_preserves (xs : list I) (s : S) :
  (forall x s', In x xs -> Inv s' -> Inv (fst (body x s'))) ->
  Inv s -> Inv (lo_state (for_each_unguarded body xs s)).
Proof.
  revert s; induction xs as [| x xs IH]; intros s Hpres Hs; cbn; [exact Hs |].
  pose proof (Hpres x s (or_introl eq_refl) Hs) as H1.
  destruct (body x s) as [s1 [e |]]; cbn in *; [exact H1 |].
  apply IH; [intros y s' Hy; apply Hpres; right; exact Hy | exact H1].
Qed.

(** Once the body for [a] has completed in a state where it establishes
    [Good], [Good] holds at the end if every later body keeps it. *)
Lemma unguarded_completed_good (a : I) (xs : list I) (s : S) :
  (forall x s', Inv s' -> Inv (fst (body x s'))) ->
  (forall s', snd (body a s') = None -> Inv (fst (body a s'))) ->
  In a (lo_completed (for_each_unguarded body xs s)) ->
  Inv (lo_state (for_each_unguarded body xs s)).
Proof.
  intros Hpres Hest; revert s; induction xs as [| x xs IH]; intros s; cbn; [tauto |].
  destruct (body x s) as [s1 e] eqn:Hb; destruct e as [e |]; cbn; [tauto |].
  intros [-> | H]; [| exact (IH s1 H)].
  apply unguarded_preserves; [intros y s' _; apply Hpres |].
  specialize (Hest s); rewrite Hb in Hest; exact (Hest eq_refl).
Qed.
End UnguardedLoopFacts.

(** ** Facts about the address set and the profile body *)

Lemma in_add_address (acc : list string) (b a : string) :
  In a (add_address acc b) <-> In a acc \/ (a = b /\ b <> "").
Proof.
  unfold add_address.
  destruct (String.eqb_spec b "") as [Hb | Hb].
  - split; [tauto | intros [H | [_ H]]; [exact H | contradiction]].
  - destruct (existsb (String.eqb b) acc) eqn:He.
    + apply existsb_exists in He as [y [Hy Hby]].
      apply String.eqb_eq in Hby; subst y.
      split; [tauto | intros [H | [-> _]]; assumption].
    + rewrite in_app_iff; cbn.
      split; [intros [H | [H | []]]; [left | right]; auto |].
      intros [H | [-> _]]; [left | right; left]; auto.
Qed.

Lemma in_recent_addresses_acc (l : list NFTTransaction) (acc : list string) (a : string) :
  In a (fold_left (fun acc tx => add_address (add_address acc (buyer_address tx))
                                             (seller_address tx)) l acc)
  <-> In a acc \/ (a <> "" /\ exists tx, In tx l /\
                     (buyer_address tx = a \/ seller_address tx = a)).
Proof.
  revert acc; induction l as [| tx l IH]; intros acc; cbn.
  - split; [tauto |]; intros [H | [_ [tx [[] _]]]]; exact H.
  - rewrite IH, !in_add_address.
    split.
    + intros [[[H | [-> Hb]] | [-> Hs]] | [Ha [tx' [Hin Htx]]]].
      * left; exact H.
      * right; split; [exact Hb | exists tx; auto].
      * right; split; [exact Hs | exists tx; auto].
      * right; split; [exact Ha | exists tx'; auto].
    + intros [H | [Ha [tx' [[<- | Hin] [Hb | Hs]]]]].
      * left; left; left; exact H.
      * left; left; right; split; [symmetry; exact Hb | rewrite Hb; exact Ha].
      * left; right; split; [symmetry; exact Hs | rewrite Hs; exact Ha].
      * right; split; [exact Ha | exists tx'; auto].
      * right; split; [exact Ha | exists tx'; auto].
Qed.

Lemma in_recent_addresses (l : list NFTTransaction) (a : string) :
  In a (recent_addresses l)
  <-> a <> "" /\ exists tx, In tx l /\ (buyer_address tx = a \/ seller_address tx = a).
Proof.
  unfold recent_addresses; rewrite in_recent_addresses_acc; cbn; tauto.
Qed.

(** Every address of the loop has at least one transaction. *)
Lemma recent_address_has_txs (now : Z) (txs : list NFTTransaction) (a : string) :
  In a (recent_addresses (recent_txs now txs)) -> user_txs txs a <> [].
Proof.
  rewrite in_recent_addresses; intros [_ [tx [Hin Htx]]].
  unfold recent_txs in Hin; apply List.filter_In in Hin as [Hin _].
  assert (Hu : In tx (user_txs txs a)).
  { unfold user_txs; apply List.filter_In; split; [exact Hin |].
    destruct Htx as [-> | ->]; rewrite String.eqb_refl; [reflexivity | apply orb_true_r]. }
  intros He; rewrite He in Hu; exact Hu.
Qed.

Lemma body_lookup_ne (db_fails : string -> bool) (now : Z) (txs : list NFTTransaction)
  (x a : string) (s : profiles) :
  x <> a -> fst (update_profile_body db_fails now txs x s) !! a = s !! a.
Proof.
  intros Hxa; unfold update_profile_body, get_or_create.
  destruct (s !! x); cbv beta iota zeta;
    destruct (user_txs txs x); try destruct (db_fails x); cbn;
    rewrite ?lookup_insert_ne by congruence; reflexivity.
Qed.

Lemma body_on_existing (db_fails : string -> bool) (now : Z) (txs : list NFTTransaction)
  (a : string) (s : profiles) (p : UserBehaviorProfile) :
  s !! a = Some p ->
  fst (update_profile_body db_fails now txs a s) = s \/
  (user_txs txs a <> [] /\
   fst (update_profile_body db_fails now txs a s) = <[a := recompute now p (user_txs txs a)]> s).
Proof.
  intros Hp; unfold update_profile_body, get_or_create; rewrite Hp; cbv beta iota zeta.
  destruct (user_txs txs a); [left; reflexivity |].
  destruct (db_fails a); [left; reflexivity | right; split; [discriminate | reflexivity]].
Qed.

Lemma body_completed_inserts (db_fails : string -> bool) (now : Z)
  (txs : list NFTTransaction) (a : string) (s : profiles) :
  user_txs txs a <> [] ->
  snd (update_profile_body db_fails now txs a s) = None ->
  fst (update_profile_body db_fails now txs a s)
  = <[a := recompute now (fst (get_or_create now a s)) (user_txs txs a)]>
      (snd (get_or_create now a s)).
Proof.
  intros Hne; unfold update_profile_body.
  destruct (get_or_create now a s) as [p ps1]; cbv beta iota zeta.
  destruct (user_txs txs a); [contradiction |].
  destruct (db_fails a); [discriminate | reflexivity].
Qed.

Lemma body_no_faults_completes (now : Z) (txs : list NFTTransaction)
  (x : string) (s : profiles) :
  snd (update_profile_body no_db_faults now txs x s) = None.
Proof.
  unfold update_profile_body.
  destruct (get_or_create now x s) as [p ps1]; cbv beta iota zeta.
  destruct (user_txs txs x); reflexivity.
Qed.

Lemma recompute_risk_inv (now : Z) (p : UserBehaviorProfile) (uts : list NFTTransaction) :
  risk_inv (recompute now p uts).
Proof.
  unfold risk_inv, recompute.
  cbn [risk_score transaction_frequency total_volume preferred_collections total_transactions].
  rewrite length_map; reflexivity.
Qed.

Lemma risk_score_of_bounds (f v : Q) (n c : nat) :
  Qle 0 (risk_score_of f v n c) /\ Qle (risk_score_of f v n c) 1.
Proof.
  unfold risk_score_of, risk_sum.
  destruct (Qltb 10 f), (Qltb 100 v), (Nat.leb n 2 && Nat.ltb 10 c);
    split; vm_compute; intros H; discriminate H.
Qed.

(** Recomputing from a non-empty history gives the same seven fields
    whatever the previous row and the current time. *)
Lemma recompute_fields (now now' : Z) (p p' : UserBehaviorProfile)
  (uts : list NFTTransaction) :
  uts <> [] -> profile_fields (recompute now p uts) = profile_fields (recompute now' p' uts).
Proof. destruct uts; [contradiction | reflexivity]. Qed.

Lemma recent_txs_mono (now1 now2 : Z) (txs : list NFTTransaction) (tx : NFTTransaction) :
  now1 <= now2 -> In tx (recent_txs now2 txs) -> In tx (recent_txs now1 txs).
Proof.
  unfold recent_txs; rewrite !List.filter_In; intros Hle [Hin Hts]; split; [exact Hin |].
  apply Z.leb_le in Hts; apply Z.leb_le; lia.
Qed.

(** ** C1: the stored risk score *)

(** C1: every address whose recomputation completes in a run of
    [update_user_behavior_profiles_task] (whatever the database does for
    the other addresses) ends the run with a stored [risk_score] equal to
    [min(sum of contributions, 1.0)] of its stored fields
    ([+0.3] if [transaction_frequency > 10], [+0.2] if [total_volume > 100],
    [+0.3] if at most 2 preferred collections and more than 10
    transactions), hence in [[0, 1]]. *)
Theorem C1_risk_score_clamped_sum (db_fails : string -> bool) (now : Z)
  (txs : list NFTTransaction) (ps : profiles) (a : string) :
  In a (lo_completed (update_user_behavior_profiles_task db_fails now txs ps)) ->
  exists p : UserBehaviorProfile,
    lo_state (update_user_behavior_profiles_task db_fails now txs ps) !! a = Some p /\
    risk_score p = risk_score_of (transaction_frequency p) (total_volume p)
                     (length (preferred_collections p)) (total_transactions p) /\
    Qle 0 (risk_score p) /\ Qle (risk_score p) 1.
Proof.
  intros Hc.
  assert (Hne : user_txs txs a <> []).
  { apply (recent_address_has_txs now).
    exact (unguarded_completed_in _ _ _ _ Hc). }
  assert (Hgood : exists p, lo_state (update_user_behavior_profiles_task db_fails now txs ps)
                              !! a = Some p /\ risk_inv p).
  { unfold update_user_behavior_profiles_task in *.
    apply (unguarded_completed_good (update_profile_body db_fails now txs)
             (fun s => exists p, s !! a = Some p /\ risk_inv p) a); [| | exact Hc].
    - intros x s [p [Hp Hinv]].
      destruct (String.eq_dec x a) as [-> | Hxa].
      + destruct (body_on_existing db_fails now txs a s p Hp) as [-> | [_ ->]].
        * exists p; auto.
        * eexists; split; [apply lookup_insert_eq | apply recompute_risk_inv].
      + exists p; rewrite body_lookup_ne by exact Hxa; auto.
    - intros s Hok.
      rewrite (body_completed_inserts db_fails now txs a s Hne Hok).
      eexists; split; [apply lookup_insert_eq | apply recompute_risk_inv]. }
  destruct Hgood as [p [Hp Hinv]].
  exists p; split; [exact Hp |]; split; [exact Hinv |].
  rewrite Hinv; apply risk_score_of_bounds.
Qed.

Lemma C1_risk_score_clamped_sum_witness :
  In "alice"%string (lo_completed (update_user_behavior_profiles_task no_db_faults 100000
                                     [tx_alice_bob; tx_bob_alice] ∅)) /\
  exists p : UserBehaviorProfile,
    lo_state (update_user_behavior_profiles_task no_db_faults 100000
                [tx_alice_bob; tx_bob_alice] ∅) !! "alice"%string = Some p /\
    risk_score p = risk_score_of (transaction_frequency p) (total_volume p)
                     (length (preferred_collections p)) (total_transactions p) /\
    Qle 0 (risk_score p) /\ Qle (risk_score p) 1.
Proof.
  assert (H : In "alice"%string (lo_completed (update_user_behavior_profiles_task
                no_db_faults 100000 [tx_alice_bob; tx_bob_alice] ∅)))
    by (vm_compute; left; reflexivity).
  split; [exact H |].
  exact (C1_risk_score_clamped_sum no_db_faults 100000 [tx_alice_bob; tx_bob_alice] ∅
           "alice" H).
Defined.

(** ** C4: idempotence of the profile recomputation *)

Lemma complete_run_fields (now : Z) (txs : list NFTTransaction) (ps : profiles) (b : string) :
  In b (recent_addresses (recent_txs now txs)) ->
  exists p, lo_state (update_user_behavior_profiles_task no_db_faults now txs ps) !! b = Some p
            /\ profile_fields p = expected_fields txs b.
Proof.
  intros Hb.
  pose proof (recent_address_has_txs now txs b Hb) as Hne.
  unfold update_user_behavior_profiles_task.
  apply (unguarded_completed_good (update_profile_body no_db_faults now txs)
           (fun s => exists p, s !! b = Some p /\ profile_fields p = expected_fields txs b) b).
  - intros x s [p [Hp Hf]].
    destruct (String.eq_dec x b) as [-> | Hxb].
    + destruct (body_on_existing no_db_faults now txs b s p Hp) as [-> | [Hne' ->]].
      * exists p; auto.
      * eexists; split; [apply lookup_insert_eq |].
        unfold expected_fields; apply recompute_fields; exact Hne'.
    + exists p; rewrite body_lookup_ne by exact Hxb; auto.
  - intros s Hok.
    rewrite (body_completed_inserts no_db_faults now txs b s Hne Hok).
    eexists; split; [apply lookup_insert_eq |].
    unfold expected_fields; apply recompute_fields; exact Hne.
  - rewrite (proj1 (unguarded_total _ _ _ (body_no_faults_completes now txs))).
    exact Hb.
Qed.

(** C4: after a complete run at time [now1], a second run on the same
    transaction history at any later time [now2] (even one in which the
    database raises on some addresses) leaves every profile's
    [avg_transaction_value], [transaction_frequency], [total_transactions],
    [total_volume], [preferred_collections], [risk_score] and
    [last_activity] as the first run left them. *)
Theorem C4_profile_recomputation_idempotent (db_fails2 : string -> bool)
  (now1 now2 : Z) (txs : list NFTTransaction) (ps : profiles) (a : string) :
  now1 <= now2 ->
  option_map profile_fields
    (lo_state (update_user_behavior_profiles_task db_fails2 now2 txs
                 (lo_state (update_user_behavior_profiles_task no_db_faults now1 txs ps))) !! a)
  = option_map profile_fields
      (lo_state (update_user_behavior_profiles_task no_db_faults now1 txs ps) !! a).
Proof.
  intros Hle.
  set (once := lo_state (update_user_behavior_profiles_task no_db_faults now1 txs ps)).
  unfold update_user_behavior_profiles_task at 1.
  apply (unguarded_preserves (update_profile_body db_fails2 now2 txs)
           (fun s => forall b, option_map profile_fields (s !! b)
                               = option_map profile_fields (once !! b)));
    [| intros b; reflexivity].
  intros x s Hx Hinv.
  assert (Hx1 : In x (recent_addresses (recent_txs now1 txs))).
  { apply in_recent_addresses in Hx as [Hnz [tx [Hin Htx]]].
    apply in_recent_addresses; split; [exact Hnz |].
    exists tx; split; [exact (recent_txs_mono now1 now2 txs tx Hle Hin) | exact Htx]. }
  destruct (complete_run_fields now1 txs ps x Hx1) as [p1 [Hp1 Hf1]].
  fold once in Hp1.
  specialize (Hinv x) as Hix; rewrite Hp1 in Hix.
  destruct (s !! x) as [p |] eqn:Hp; [| discriminate Hix].
  cbn in Hix; injection Hix as Hix.
  destruct (body_on_existing db_fails2 now2 txs x s p Hp) as [-> | [Hne ->]];
    [exact Hinv |].
  intros b; destruct (String.eq_dec x b) as [-> | Hxb].
  - rewrite lookup_insert_eq, Hp1; cbn; f_equal.
    rewrite Hf1; unfold expected_fields; apply recompute_fields; exact Hne.
  - rewrite lookup_insert_ne by exact Hxb; apply Hinv.
Qed.

Lemma C4_profile_recomputation_idempotent_witness :
  100000 <= 200000 /\
  option_map profile_fields
    (lo_state (update_user_behavior_profiles_task no_db_faults 200000
                 [tx_alice_bob; tx_bob_alice]
                 (lo_state (update_user_behavior_profiles_task no_db_faults 100000
                              [tx_alice_bob; tx_bob_alice] ∅))) !! "alice"%string)
  = option_map profile_fields
      (lo_state (update_user_behavior_profiles_task no_db_faults 100000
                   [tx_alice_bob; tx_bob_alice] ∅) !! "alice"%string).
Proof.
  split; [lia |].
  apply (C4_profile_recomputation_idempotent no_db_faults 100000 200000
           [tx_alice_bob; tx_bob_alice] ∅ "alice"); lia.
Defined.

(** ** C3: exceptions inside the batch loops *)

Lemma guarded_attempts_all {I S : Type} (body : I -> S -> body_result S)
  (xs : list I) (s : S) :
  lo_attempted (for_each_guarded body xs s) = xs.
Proof.
  revert s; induction xs as [| x xs IH]; intros s; cbn; [reflexivity |].
  destruct (body x s) as [s1 e]; cbn; rewrite IH; reflexivity.
Qed.

(** C3 (code bug): the due-report loop enters every due report whatever
    [generate_report] raises, but the per-address loop of
    [update_user_behavior_profiles_task] has no per-item [try]: when the
    save of the first address ("alice") raises, the second address ("bob")
    is never processed and has no profile. *)
Theorem C3_profile_loop_not_isolated :
  (forall (generate_report : AutomatedReport -> option exn) (now : datetime)
          (rs : list AutomatedReport),
     lo_attempted (generate_scheduled_reports_task generate_report now rs)
     = due_reports now rs) /\
  recent_addresses (recent_txs 100000 [tx_alice_bob; tx_bob_alice])
  = ["alice"%string; "bob"%string] /\
  lo_attempted (update_user_behavior_profiles_task (fun a => String.eqb a "alice")
                  100000 [tx_alice_bob; tx_bob_alice] ∅) = ["alice"%string] /\
  lo_escaped (update_user_behavior_profiles_task (fun a => String.eqb a "alice")
                100000 [tx_alice_bob; tx_bob_alice] ∅)
  = Some (Exception "database error") /\
  lo_state (update_user_behavior_profiles_task (fun a => String.eqb a "alice")
              100000 [tx_alice_bob; tx_bob_alice] ∅) !! "bob"%string = None.
Proof.
  split; [intros; apply guarded_attempts_all |].
  split; [reflexivity |].
  split; [reflexivity |].
  split; [reflexivity |].
  vm_compute; reflexivity.
Qed.

(** ** Webhook dispatch *)

Lemma dispatch_state (deliver : AlertWebhook -> AnomalyDetection -> string)
  (now : Z) (sel : list AnomalyDetection) (s : AlertStore) :
  alerts_sent (lo_state (dispatch deliver now sel s)) = alerts_sent s ++ map anomaly_id sel /\
  anomalies (lo_state (dispatch deliver now sel s)) = anomalies s /\
  lo_completed (dispatch deliver now sel s) = sel.
Proof.
  unfold dispatch; revert s; induction sel as [| an sel IH]; intros s; cbn.
  - rewrite app_nil_r; auto.
  - destruct (IH (send_anomaly_alert deliver now an s)) as [H1 [H2 H3]].
    rewrite H1, H2, H3; cbn; rewrite <- app_assoc; auto.
Qed.

Lemma in_select_recent_pending (now : Z) (s : AlertStore) (an : AnomalyDetection) :
  In an (select_recent_pending now s)
  <-> In an (anomalies s) /\ status an = "pending"%string /\ now - 5 * 60 <= detected_at an.
Proof.
  unfold select_recent_pending; rewrite List.filter_In, andb_true_iff, Z.leb_le,
    String.eqb_eq; tauto.
Qed.

(** C6: [trigger_webhooks_task] hands to [send_anomaly_alert], once each
    and in table order, exactly the anomalies with status ['pending'] and
    [detected_at >= now - 5 minutes]; any other anomaly (older, or not
    pending) is not selected. *)
Theorem C6_dispatch_selects_recent_pending
  (deliver : AlertWebhook -> AnomalyDetection -> string) (now : Z) (s : AlertStore) :
  alerts_sent (lo_state (trigger_webhooks_task deliver now s))
  = alerts_sent s ++ map anomaly_id
      (List.filter (fun an => ((now - 5 * 60) <=? detected_at an)
                              && String.eqb (status an) "pending") (anomalies s)) /\
  lo_completed (trigger_webhooks_task deliver now s) = select_recent_pending now s /\
  (forall an : AnomalyDetection,
     In an (select_recent_pending now s)
     <-> In an (anomalies s) /\ status an = "pending"%string /\
         now - 5 * 60 <= detected_at an).
Proof.
  unfold trigger_webhooks_task.
  destruct (dispatch_state deliver now (select_recent_pending now s) s) as [H1 [_ H3]].
  split; [exact H1 |]; split; [exact H3 |].
  intros an; apply in_select_recent_pending.
Qed.

(** C7 (as amended): [trigger_webhooks_task] has no claim step.  It
    changes no anomaly's status, and two runs that read the same snapshot
    each send every anomaly they selected, so an anomaly selected by both is
    sent twice. *)
Lemma C7_two_runs_send_twice (deliver : AlertWebhook -> AnomalyDetection -> string)
  (now1 now2 : Z) (s0 : AlertStore) :
  alerts_sent (two_runs_same_snapshot deliver now1 now2 s0)
  = alerts_sent s0 ++ map anomaly_id (select_recent_pending now1 s0)
                   ++ map anomaly_id (select_recent_pending now2 s0) /\
  anomalies (two_runs_same_snapshot deliver now1 now2 s0) = anomalies s0 /\
  anomalies (lo_state (trigger_webhooks_task deliver now1 s0)) = anomalies s0.
Proof.
  unfold two_runs_same_snapshot, trigger_webhooks_task.
  destruct (dispatch_state deliver now1 (select_recent_pending now1 s0) s0) as [A1 [A2 _]].
  destruct (dispatch_state deliver now2 (select_recent_pending now2 s0)
              (lo_state (dispatch deliver now1 (select_recent_pending now1 s0) s0)))
    as [B1 [B2 _]].
  rewrite B1, A1, B2, A2, app_assoc; auto.
Qed.

(** C7 refuted: two runs at time 60 that both read the store before
    sending deliver anomaly 1 twice to the same endpoint. *)
Lemma C7_double_delivery_counterexample :
  alerts_sent (two_runs_same_snapshot deliver_ok 60 60 store_one_pending) = [1%nat; 1%nat] /\
  webhook_logs (two_runs_same_snapshot deliver_ok 60 60 store_one_pending)
  = [mk_log 1 1 60 "success"; mk_log 1 1 60 "success"] /\
  ~ NoDup (alerts_sent (two_runs_same_snapshot deliver_ok 60 60 store_one_pending)).
Proof.
  assert (H : alerts_sent (two_runs_same_snapshot deliver_ok 60 60 store_one_pending)
              = [1%nat; 1%nat]) by reflexivity.
  split; [exact H |]; split; [reflexivity |].
  rewrite H; intros Hnd; inversion Hnd as [| x l Hnin _]; apply Hnin; left; reflexivity.
Qed.

(** ** C8: cleanup *)

(** C8: [cleanup_old_data_task] keeps exactly the anomalies with
    [detected_at >= now - 90 days] and the logs with
    [sent_at >= now - 30 days] (deleting the strictly older ones whatever
    their status or outcome), and touches nothing else. *)
Theorem C8_cleanup_deletes_exactly_old_rows (now_anomalies now_logs : Z) (s : AlertStore) :
  (forall an : AnomalyDetection,
     In an (anomalies (cleanup_old_data_task now_anomalies now_logs s))
     <-> In an (anomalies s) /\ now_anomalies - 90 * seconds_per_day <= detected_at an) /\
  (forall l : WebhookLog,
     In l (webhook_logs (cleanup_old_data_task now_anomalies now_logs s))
     <-> In l (webhook_logs s) /\ now_logs - 30 * seconds_per_day <= sent_at l) /\
  webhooks (cleanup_old_data_task now_anomalies now_logs s) = webhooks s /\
  alerts_sent (cleanup_old_data_task now_anomalies now_logs s) = alerts_sent s.
Proof.
  unfold cleanup_old_data_task; cbn.
  split; [| split; [| split; reflexivity]].
  - intros an; rewrite List.filter_In, negb_true_iff, Z.ltb_ge; tauto.
  - intros l; rewrite List.filter_In, negb_true_iff, Z.ltb_ge; tauto.
Qed.

(** ** Profile computation: the collection counts *)

Lemma dict_get_app (d1 d2 : list (string * nat)) (c : string) :
  dict_get (d1 ++ d2) c
  = match dict_get d1 c with Some v => Some v | None => dict_get d2 c end.
Proof.
  induction d1 as [| [k v] d1 IH]; cbn; [reflexivity |].
  destruct (String.eqb k c); [reflexivity | exact IH].
Qed.

Lemma dict_get_absent (d : list (string * nat)) (c : string) :
  existsb (fun kv => String.eqb (fst kv) c) d = false -> dict_get d c = None.
Proof.
  induction d as [| [k v] d IH]; cbn; [reflexivity |].
  destruct (String.eqb k c); [discriminate | exact IH].
Qed.

Lemma dict_get_present (d : list (string * nat)) (c : string) :
  existsb (fun kv => String.eqb (fst kv) c) d = true -> exists v, dict_get d c = Some v.
Proof.
  induction d as [| [k v] d IH]; cbn; [discriminate |].
  destruct (String.eqb k c); [eauto | exact IH].
Qed.

Lemma dict_get_incr_eq (d : list (string * nat)) (c : string) :
  dict_get (map (fun kv => if String.eqb (fst kv) c then (fst kv, S (snd kv)) else kv) d) c
  = option_map S (dict_get d c).
Proof.
  induction d as [| [k v] d IH]; cbn; [reflexivity |].
  destruct (String.eqb k c) eqn:Hk; cbn; rewrite ?Hk; [reflexivity | exact IH].
Qed.

Lemma dict_get_incr_ne (d : list (string * nat)) (c c' : string) :
  c <> c' ->
  dict_get (map (fun kv => if String.eqb (fst kv) c then (fst kv, S (snd kv)) else kv) d) c'
  = dict_get d c'.
Proof.
  intros Hcc'; induction d as [| [k v] d IH]; cbn; [reflexivity |].
  destruct (String.eqb_spec k c) as [-> | Hk]; cbn.
  - apply String.eqb_neq in Hcc'; rewrite Hcc'; exact IH.
  - destruct (String.eqb k c'); [reflexivity | exact IH].
Qed.

(** A dict built by [d[key(x)] += 1] (or [d.get(key(x), 0) + 1]) over [xs]
    maps every key to its number of items, and has no entry for the
    others. *)
Lemma dict_get_fold_by {A : Type} (key : A -> string) (xs : list A)
  (d0 : list (string * nat)) (c : string) :
  dict_get (fold_left (fun d x => bump (key x) d) xs d0) c
  = match dict_get d0 c with
    | Some v => Some (v + length (List.filter (fun x => String.eqb (key x) c) xs))%nat
    | None => match length (List.filter (fun x => String.eqb (key x) c) xs) with
              | O => None
              | n => Some n
              end
    end.
Proof.
  revert d0; induction xs as [| x xs IH]; intros d0; cbn.
  - destruct (dict_get d0 c); [f_equal; lia | reflexivity].
  - rewrite IH; unfold bump.
    destruct (String.eqb_spec (key x) c) as [Hc | Hc]; cbn.
    + subst c.
      destruct (existsb (fun kv => String.eqb (fst kv) (key x)) d0) eqn:He.
      * destruct (dict_get_present _ _ He) as [v Hv].
        rewrite dict_get_incr_eq, Hv; cbn; f_equal; lia.
      * rewrite dict_get_app, (dict_get_absent _ _ He); cbn.
        rewrite String.eqb_refl; reflexivity.
    + destruct (existsb (fun kv => String.eqb (fst kv) (key x)) d0).
      * rewrite dict_get_incr_ne by exact Hc; reflexivity.
      * rewrite dict_get_app; cbn.
        apply String.eqb_neq in Hc; rewrite Hc.
        destruct (dict_get d0 c); reflexivity.
Qed.

Lemma count_collections_get (uts : list NFTTransaction) (c : string) :
  dict_get (count_collections uts) c
  = match tx_count uts c with O => None | n => Some n end.
Proof. unfold count_collections; rewrite dict_get_fold_by; reflexivity. Qed.

Lemma bump_keys_nodup (c : string) (d : list (string * nat)) :
  List.NoDup (map fst d) -> List.NoDup (map fst (bump c d)).
Proof.
  intros Hnd; unfold bump.
  destruct (existsb (fun kv => String.eqb (fst kv) c) d) eqn:He.
  - rewrite map_map.
    replace (map (fun x => fst (if String.eqb (fst x) c then (fst x, S (snd x)) else x)) d)
      with (map fst d); [exact Hnd |].
    apply map_ext; intros [k v]; cbn; destruct (String.eqb k c); reflexivity.
  - rewrite map_app; cbn.
    apply Permutation_NoDup with (l := c :: map fst d); [apply Permutation_cons_append |].
    constructor; [| exact Hnd].
    intros Hin; apply in_map_iff in Hin as [[k v] [Hk Hin]]; cbn in Hk; subst k.
    assert (Hex : existsb (fun kv => String.eqb (fst kv) c) d = true).
    { apply existsb_exists; exists (c, v); split; [exact Hin | apply String.eqb_refl]. }
    congruence.
Qed.

Lemma fold_bump_nodup {A : Type} (key : A -> string) (xs : list A) (d0 : list (string * nat)) :
  List.NoDup (map fst d0) ->
  List.NoDup (map fst (fold_left (fun d x => bump (key x) d) xs d0)).
Proof.
  revert d0; induction xs as [| x xs IH]; intros d0 Hd0; cbn; [exact Hd0 |].
  apply IH, bump_keys_nodup, Hd0.
Qed.

Lemma count_collections_nodup (uts : list NFTTransaction) :
  List.NoDup (map fst (count_collections uts)).
Proof. apply fold_bump_nodup; constructor. Qed.

Lemma nodup_keys_get (d : list (string * nat)) (c : string) (k : nat) :
  List.NoDup (map fst d) -> In (c, k) d -> dict_get d c = Some k.
Proof.
  induction d as [| [c' k'] d IH]; cbn; [tauto |].
  intros Hnd Hin; apply NoDup_cons_iff in Hnd as [Hnot Hnd].
  destruct Hin as [Heq | Hin].
  - injection Heq as -> ->; rewrite String.eqb_refl; reflexivity.
  - destruct (String.eqb_spec c' c) as [-> | Hne]; [| exact (IH Hnd Hin)].
    exfalso; apply Hnot, in_map_iff; exists (c, k); auto.
Qed.

(** ** Profile computation: the stable descending sort *)

Lemma insert_desc_perm (x : string * nat) (l : list (string * nat)) :
  Permutation (insert_desc x l) (x :: l).
Proof.
  induction l as [| y l IH]; cbn [insert_desc]; [reflexivity |].
  destruct (Nat.ltb (snd y) (snd x)); [reflexivity |].
  eapply perm_trans; [apply perm_skip, IH | apply perm_swap].
Qed.

Lemma sort_perm_acc (d acc : list (string * nat)) :
  Permutation (fold_left (fun acc x => insert_desc x acc) d acc) (acc ++ d).
Proof.
  revert acc; induction d as [| x d IH]; intros acc; cbn; [rewrite app_nil_r; reflexivity |].
  eapply perm_trans; [apply IH |].
  eapply perm_trans; [apply Permutation_app_tail, insert_desc_perm |].
  apply Permutation_middle.
Qed.

Lemma sort_by_count_desc_perm (d : list (string * nat)) :
  Permutation (sort_by_count_desc d) d.
Proof. exact (sort_perm_acc d []). Qed.





Lemma recompute_preferred (now : Z) (p : UserBehaviorProfile) (uts : list NFTTransaction) :
  preferred_collections (recompute now p uts)
  = map fst (firstn 5 (sort_by_count_desc (count_collections uts))).
Proof. reflexivity. Qed.

(** A contract among the sorted counts has its transaction count there. *)
Lemma sorted_counts_entry (uts : list NFTTransaction) (c : string) (k : nat) :
  In (c, k) (sort_by_count_desc (count_collections uts)) ->
  k = tx_count uts c /\ tx_count uts c <> O.
Proof.
  intros Hin.
  apply (Permutation_in _ (sort_by_count_desc_perm _)) in Hin.
  apply (nodup_keys_get _ _ _ (count_collections_nodup uts)) in Hin.
  rewrite count_collections_get in Hin.
  destruct (tx_count uts c); [discriminate | injection Hin as <-; split; [reflexivity | discriminate]].
Qed.


(** ** Profile computation: timestamps and averages *)

Lemma fold_max_bounds (l : list NFTTransaction) (m : Z) :
  m <= fold_left (fun m t => Z.max m (tx_timestamp t)) l m /\
  (forall t, In t l -> tx_timestamp t <= fold_left (fun m t => Z.max m (tx_timestamp t)) l m) /\
  (fold_left (fun m t => Z.max m (tx_timestamp t)) l m = m \/
   exists t, In t l /\ fold_left (fun m t => Z.max m (tx_timestamp t)) l m = tx_timestamp t).
Proof.
  revert m; induction l as [| a l IH]; intros m; cbn.
  - split; [lia | split; [tauto | left; reflexivity]].
  - destruct (IH (Z.max m (tx_timestamp a))) as [H1 [H2 H3]].
    split; [lia |]; split.
    + intros t [<- | Ht]; [lia | exact (H2 t Ht)].
    + destruct H3 as [H3 | [t [Ht H3]]]; [| right; exists t; auto].
      destruct (Z.max_spec m (tx_timestamp a)) as [[_ Hm] | [_ Hm]]; rewrite Hm in *.
      * right; exists a; auto.
      * left; exact H3.
Qed.

Lemma fold_min_le (l : list NFTTransaction) (m : Z) :
  fold_left (fun m t => Z.min m (tx_timestamp t)) l m <= m.
Proof.
  revert m; induction l as [| a l IH]; intros m; cbn; [lia |].
  specialize (IH (Z.min m (tx_timestamp a))); lia.
Qed.

Lemma recompute_last_activity (now : Z) (p : UserBehaviorProfile) (uts : list NFTTransaction) :
  last_activity (recompute now p uts)
  = match last_timestamp uts with Some l => l | None => now end.
Proof. reflexivity. Qed.

Lemma recompute_frequency (now : Z) (p : UserBehaviorProfile) (uts : list NFTTransaction) :
  transaction_frequency (recompute now p uts)
  = match first_timestamp uts, last_timestamp uts with
    | Some f, Some l =>
        let days_active := (l - f) / seconds_per_day + 1 in
        if 0 <? days_active
        then Qdiv (inject_Z (Z.of_nat (length uts))) (inject_Z days_active) else 0%Q
    | _, _ => 0%Q
    end.
Proof. reflexivity. Qed.


Lemma recompute_total (now : Z) (p : UserBehaviorProfile) (uts : list NFTTransaction) :
  total_transactions (recompute now p uts) = length uts /\
  total_volume (recompute now p uts) = sum_prices uts.
Proof. split; reflexivity. Qed.

(** ** The profile table *)



(** ** Extra properties of [update_user_behavior_profiles_task] *)

(** The stored [preferred_collections] has at most five entries, no
    repeated contract, and only contracts of the address's own
    transactions. *)
Theorem X_preferred_collections_shape (now : Z) (p : UserBehaviorProfile)
  (uts : list NFTTransaction) :
  (length (preferred_collections (recompute now p uts)) <= 5)%nat /\
  List.NoDup (preferred_collections (recompute now p uts)) /\
  (forall c, In c (preferred_collections (recompute now p uts)) ->
             exists tx, In tx uts /\ nft_contract tx = c).
Proof.
  rewrite recompute_preferred.
  set (L := sort_by_count_desc (count_collections uts)).
  split; [rewrite length_map; apply firstn_le_length |]; split.
  - rewrite <- firstn_map.
    pose proof (Permutation_NoDup
                  (Permutation_map fst (Permutation_sym (sort_by_count_desc_perm _)))
                  (count_collections_nodup uts)) as H.
    fold L in H; rewrite <- (firstn_skipn 5 (map fst L)) in H.
    exact (NoDup_app_remove_r _ _ H).
  - intros c Hc; apply in_map_iff in Hc as [[c0 k] [Hc0 Hin]]; cbn in Hc0; subst c0.
    assert (HL : In (c, k) L).
    { rewrite <- (firstn_skipn 5 L); apply in_or_app; left; exact Hin. }
    destruct (sorted_counts_entry _ _ _ HL) as [_ Hn].
    unfold tx_count in Hn.
    destruct (List.filter (fun tx => String.eqb (nft_contract tx) c) uts) as [| t l] eqn:Hf;
      [contradiction |].
    assert (Ht : In t (List.filter (fun tx => String.eqb (nft_contract tx) c) uts))
      by (rewrite Hf; left; reflexivity).
    apply List.filter_In in Ht as [Ht Hct]; apply String.eqb_eq in Hct.
    exists t; auto.
Qed.



(** [last_activity] of a recomputed profile is the latest timestamp of the
    address's transactions. *)
Theorem X_last_activity_is_latest (now : Z) (p : UserBehaviorProfile)
  (uts : list NFTTransaction) :
  uts <> [] ->
  (forall tx, In tx uts -> tx_timestamp tx <= last_activity (recompute now p uts)) /\
  (exists tx, In tx uts /\ tx_timestamp tx = last_activity (recompute now p uts)).
Proof.
  destruct uts as [| t0 rest]; [contradiction | intros _].
  rewrite recompute_last_activity; cbn [last_timestamp].
  destruct (fold_max_bounds rest (tx_timestamp t0)) as [H1 [H2 H3]].
  split.
  - intros tx [<- | Htx]; [exact H1 | exact (H2 tx Htx)].
  - destruct H3 as [H3 | [t [Ht H3]]].
    + exists t0; split; [left; reflexivity | symmetry; exact H3].
    + exists t; split; [right; exact Ht | symmetry; exact H3].
Qed.

Lemma X_last_activity_is_latest_witness :
  [tx_alice_bob; tx_bob_alice] <> [] /\
  (forall tx, In tx [tx_alice_bob; tx_bob_alice] ->
     tx_timestamp tx <= last_activity (recompute 0 (default_profile "alice" 0)
                                         [tx_alice_bob; tx_bob_alice])) /\
  (exists tx, In tx [tx_alice_bob; tx_bob_alice] /\
     tx_timestamp tx = last_activity (recompute 0 (default_profile "alice" 0)
                                        [tx_alice_bob; tx_bob_alice])).
Proof.
  assert (H : [tx_alice_bob; tx_bob_alice] <> []) by discriminate.
  split; [exact H | exact (X_last_activity_is_latest 0 (default_profile "alice" 0) _ H)].
Defined.

(** For a non-empty history the stored [transaction_frequency] is positive
    and at most [total_transactions]: [days_active] is at least one. *)
Theorem X_frequency_positive_at_most_count (now : Z) (p : UserBehaviorProfile)
  (uts : list NFTTransaction) :
  uts <> [] ->
  Qlt 0 (transaction_frequency (recompute now p uts)) /\
  Qle (transaction_frequency (recompute now p uts))
      (inject_Z (Z.of_nat (total_transactions (recompute now p uts)))).
Proof.
  intros Hne; rewrite recompute_frequency, (proj1 (recompute_total now p uts)).
  destruct uts as [| t0 rest]; [contradiction |]; cbn [first_timestamp last_timestamp].
  pose proof (fold_min_le rest (tx_timestamp t0)) as Hf.
  destruct (fold_max_bounds rest (tx_timestamp t0)) as [Hl _].
  set (f := fold_left (fun m t => Z.min m (tx_timestamp t)) rest (tx_timestamp t0)) in *.
  set (l := fold_left (fun m t => Z.max m (tx_timestamp t)) rest (tx_timestamp t0)) in *.
  set (n := Z.of_nat (length (t0 :: rest))).
  assert (Hn : 1 <= n) by (unfold n; cbn [length]; lia).
  assert (Hd : 1 <= (l - f) / seconds_per_day + 1).
  { assert (0 <= (l - f) / seconds_per_day)
      by (apply Z.div_pos; unfold seconds_per_day; lia). lia. }
  cbv zeta; rewrite (proj2 (Z.ltb_lt 0 _)) by lia.
  set (d := (l - f) / seconds_per_day + 1) in *.
  assert (Hdq : Qlt 0 (inject_Z d)) by (change 0%Q with (inject_Z 0); rewrite <- Zlt_Qlt; lia).
  split.
  - apply Qlt_shift_div_l; [exact Hdq |].
    change 0%Q with (inject_Z 0); rewrite <- inject_Z_mult, <- Zlt_Qlt; lia.
  - apply Qle_shift_div_r; [exact Hdq |].
    rewrite <- inject_Z_mult, <- Zle_Qle; nia.
Qed.

Lemma X_frequency_positive_at_most_count_witness :
  [tx_alice_bob; tx_bob_alice] <> [] /\
  Qlt 0 (transaction_frequency (recompute 0 (default_profile "alice" 0)
                                  [tx_alice_bob; tx_bob_alice])) /\
  Qle (transaction_frequency (recompute 0 (default_profile "alice" 0)
                                [tx_alice_bob; tx_bob_alice]))
      (inject_Z (Z.of_nat (total_transactions (recompute 0 (default_profile "alice" 0)
                                                  [tx_alice_bob; tx_bob_alice])))).
Proof.
  assert (H : [tx_alice_bob; tx_bob_alice] <> []) by discriminate.
  split; [exact H | exact (X_frequency_positive_at_most_count 0 (default_profile "alice" 0) _ H)].
Defined.



(** The task leaves the row of an address with no transaction in the
    seven-day window as it was, whatever the database does. *)
Theorem X_profiles_outside_window_untouched (db_fails : string -> bool) (now : Z)
  (txs : list NFTTransaction) (ps : profiles) (a : string) :
  (forall tx, In tx txs -> now - 7 * seconds_per_day <= tx_timestamp tx ->
              buyer_address tx <> a /\ seller_address tx <> a) ->
  lo_state (update_user_behavior_profiles_task db_fails now txs ps) !! a = ps !! a.
Proof.
  intros Hout; unfold update_user_behavior_profiles_task.
  apply (unguarded_preserves _ (fun s => s !! a = ps !! a)); [| reflexivity].
  intros x s Hx Hs; rewrite body_lookup_ne; [exact Hs |].
  intros ->; apply in_recent_addresses in Hx as [_ [tx [Hin Htx]]].
  unfold recent_txs in Hin; apply List.filter_In in Hin as [Hin Hts].
  apply Z.leb_le in Hts; destruct (Hout tx Hin Hts); tauto.
Qed.

Lemma X_profiles_outside_window_untouched_witness :
  (forall tx, In tx [tx_alice_bob] -> 2000 - 7 * seconds_per_day <= tx_timestamp tx ->
              buyer_address tx <> "carol"%string /\ seller_address tx <> "carol"%string) /\
  lo_state (update_user_behavior_profiles_task no_db_faults 2000 [tx_alice_bob]
              {[ "carol"%string := default_profile "carol" 0 ]}) !! "carol"%string
  = ({[ "carol"%string := default_profile "carol" 0 ]} : profiles) !! "carol"%string.
Proof.
  assert (H : forall tx, In tx [tx_alice_bob] -> 2000 - 7 * seconds_per_day <= tx_timestamp tx ->
              buyer_address tx <> "carol"%string /\ seller_address tx <> "carol"%string).
  { intros tx [<- | []] _; split; discriminate. }
  split; [exact H | exact (X_profiles_outside_window_untouched no_db_faults 2000 _ _ _ H)].
Defined.

(** An existing row is never deleted, and keeps its [wallet_address] and
    [first_seen]: the task overwrites only the seven computed fields. *)
Theorem X_existing_profile_keeps_identity (db_fails : string -> bool) (now : Z)
  (txs : list NFTTransaction) (ps : profiles) (a : string) (p : UserBehaviorProfile) :
  ps !! a = Some p ->
  exists p', lo_state (update_user_behavior_profiles_task db_fails now txs ps) !! a = Some p' /\
             wallet_address p' = wallet_address p /\ first_seen p' = first_seen p.
Proof.
  intros Hp; unfold update_user_behavior_profiles_task.
  apply (unguarded_preserves _ (fun s => exists p', s !! a = Some p' /\
           wallet_address p' = wallet_address p /\ first_seen p' = first_seen p));
    [| exists p; auto].
  intros x s _ [p' [Hs [Hw Hf]]].
  destruct (decide (x = a)) as [-> | Hne].
  - destruct (body_on_existing db_fails now txs a s p' Hs) as [-> | [_ ->]]; [eauto |].
    exists (recompute now p' (user_txs txs a)); rewrite lookup_insert_eq; auto.
  - rewrite body_lookup_ne by exact Hne; eauto.
Qed.

Lemma X_existing_profile_keeps_identity_witness :
  ({[ "alice"%string := default_profile "alice" 5 ]} : profiles) !! "alice"%string
    = Some (default_profile "alice" 5) /\
  exists p', lo_state (update_user_behavior_profiles_task no_db_faults 2000 [tx_alice_bob]
                         {[ "alice"%string := default_profile "alice" 5 ]}) !! "alice"%string
             = Some p' /\
             wallet_address p' = wallet_address (default_profile "alice" 5) /\
             first_seen p' = first_seen (default_profile "alice" 5).
Proof.
  assert (H : ({[ "alice"%string := default_profile "alice" 5 ]} : profiles) !! "alice"%string
              = Some (default_profile "alice" 5)) by reflexivity.
  split; [exact H | exact (X_existing_profile_keeps_identity no_db_faults 2000 _ _ _ _ H)].
Defined.



(** ** Chronological order *)

Lemma dt_le_spec (a b : datetime) :
  dt_le a b = true <->
  dt_year a < dt_year b \/
  (dt_year a = dt_year b /\
   (dt_month a < dt_month b \/
    (dt_month a = dt_month b /\
     (dt_day a < dt_day b \/ (dt_day a = dt_day b /\ dt_time a <= dt_time b))))).
Proof.
  unfold dt_le.
  rewrite !orb_true_iff, !andb_true_iff, !orb_true_iff, !andb_true_iff, !orb_true_iff,
    !andb_true_iff, !Z.ltb_lt, !Z.eqb_eq, !Z.leb_le.
  reflexivity.
Qed.

Lemma dt_le_refl (a : datetime) : dt_le a a = true.
Proof. apply dt_le_spec; lia. Qed.

Lemma dt_le_trans (a b c : datetime) :
  dt_le a b = true -> dt_le b c = true -> dt_le a c = true.
Proof. rewrite !dt_le_spec; lia. Qed.

Lemma dt_le_false (a b : datetime) :
  ~ (dt_le a b = true) -> dt_le a b = false.
Proof. destruct (dt_le a b); [contradiction | reflexivity]. Qed.

Lemma next_day_after (d : datetime) :
  dt_le d (next_day d) = true /\ dt_le (next_day d) d = false.
Proof.
  destruct d as [y m dd t]; unfold next_day.
  destruct (Z.ltb_spec dd (days_in_month y m)); [| destruct (Z.ltb_spec m 12)];
    (split; [apply dt_le_spec; cbn; lia | apply dt_le_false; rewrite dt_le_spec; cbn; lia]).
Qed.

Lemma iter_next_day_after (k : nat) (d : datetime) :
  (0 < k)%nat ->
  dt_le d (Nat.iter k next_day d) = true /\ dt_le (Nat.iter k next_day d) d = false.
Proof.
  induction k as [| k IH]; [lia | intros _].
  change (Nat.iter (S k) next_day d) with (next_day (Nat.iter k next_day d)).
  destruct (next_day_after (Nat.iter k next_day d)) as [H1 H2].
  destruct k as [| k'].
  - exact (next_day_after d).
  - destruct (IH ltac:(lia)) as [H3 _].
    split; [exact (dt_le_trans _ _ _ H3 H1) |].
    apply dt_le_false; intros H4.
    pose proof (dt_le_trans _ _ _ H4 H3) as H5; congruence.
Qed.

(** ** The due-report loop *)

Lemma report_id_calculate_next_run (now : datetime) (r : AutomatedReport) :
  report_id (calculate_next_run now r) = report_id r.
Proof.
  unfold calculate_next_run.
  destruct (last_run r); [| reflexivity].
  destruct (String.eqb (frequency r) "daily"); [reflexivity |].
  destruct (String.eqb (frequency r) "weekly"); [reflexivity |].
  destruct (String.eqb (frequency r) "monthly"); reflexivity.
Qed.

Lemma find_id_absent (l : list AutomatedReport) (k : nat) :
  ~ In k (map report_id l) -> List.find (fun y => Nat.eqb (report_id y) k) l = None.
Proof.
  induction l as [| y l IH]; cbn; [reflexivity |].
  intros Hk; destruct (Nat.eqb_spec (report_id y) k); [tauto |].
  apply IH; tauto.
Qed.

Lemma in_ids_filter (f : AutomatedReport -> bool) (l : list AutomatedReport) (k : nat) :
  In k (map report_id (List.filter f l)) -> In k (map report_id l).
Proof.
  rewrite !in_map_iff; intros [x [Hx Hin]]; apply List.filter_In in Hin as [Hin _].
  exists x; auto.
Qed.

Lemma ids_filter_nodup (f : AutomatedReport -> bool) (l : list AutomatedReport) :
  List.NoDup (map report_id l) -> List.NoDup (map report_id (List.filter f l)).
Proof.
  induction l as [| x l IH]; cbn; [auto |].
  intros Hnd; apply NoDup_cons_iff in Hnd as [Hx Hnd].
  destruct (f x); cbn; [| exact (IH Hnd)].
  constructor; [| exact (IH Hnd)].
  intros H; apply Hx, (in_ids_filter f), H.
Qed.

(** The guarded loop over snapshot rows with distinct ids: each row of the
    table is replaced by the result of the body run on the snapshot row
    with its id, if that body completed. *)
Lemma reports_loop_state (generate_report : AutomatedReport -> option exn)
  (now : datetime) (xs s : list AutomatedReport) :
  List.NoDup (map report_id xs) ->
  lo_state (for_each_guarded (report_body generate_report now) xs s)
  = map (fun x => match List.find (fun y => Nat.eqb (report_id y) (report_id x)) xs with
                  | Some y => match generate_report y with
                              | None => calculate_next_run now (set_last_run y now)
                              | Some _ => x
                              end
                  | None => x
                  end) s.
Proof.
  revert s; induction xs as [| y xs IH]; intros s Hnd.
  - cbn; symmetry; apply map_id.
  - apply NoDup_cons_iff in Hnd as [Hy Hnd].
    cbn [for_each_guarded]; unfold report_body.
    destruct (generate_report y) as [e |] eqn:Hg; cbn [lo_state]; rewrite (IH _ Hnd).
    + apply map_ext; intros x; cbn [List.find].
      destruct (Nat.eqb_spec (report_id y) (report_id x)) as [E | E]; [| reflexivity].
      rewrite Hg, <- E, find_id_absent by exact Hy; reflexivity.
    + unfold save_report; rewrite map_map; apply map_ext; intros x; cbn [List.find].
      rewrite report_id_calculate_next_run; cbn [report_id set_last_run].
      destruct (Nat.eqb_spec (report_id x) (report_id y)) as [E | E].
      * rewrite E, Nat.eqb_refl, Hg, report_id_calculate_next_run; cbn [report_id set_last_run].
        rewrite find_id_absent by exact Hy; reflexivity.
      * replace (Nat.eqb (report_id y) (report_id x)) with false
          by (symmetry; apply Nat.eqb_neq; congruence).
        reflexivity.
Qed.

Lemma find_due_row (now : datetime) (rs : list AutomatedReport) (x : AutomatedReport) :
  List.NoDup (map report_id rs) -> In x rs ->
  List.find (fun y => Nat.eqb (report_id y) (report_id x)) (List.filter (is_due now) rs)
  = if is_due now x then Some x else None.
Proof.
  induction rs as [| z rs IH]; [intros _ [] |].
  intros Hnd Hx; apply NoDup_cons_iff in Hnd as [Hz Hnd]; cbn [List.filter].
  destruct Hx as [-> | Hx].
  - destruct (is_due now x); cbn [List.find]; [rewrite Nat.eqb_refl; reflexivity |].
    apply find_id_absent; intros H; apply Hz, (in_ids_filter (is_due now)), H.
  - assert (Hne : report_id z <> report_id x)
      by (intros E; apply Hz; rewrite E; apply in_map, Hx).
    destruct (is_due now z); cbn [List.find]; [| exact (IH Hnd Hx)].
    apply Nat.eqb_neq in Hne; rewrite Hne; exact (IH Hnd Hx).
Qed.

Lemma calculate_next_run_known_not_due (now : datetime) (r : AutomatedReport) :
  In (frequency r) frequency_choices ->
  is_due now (calculate_next_run now (set_last_run r now)) = false.
Proof.
  destruct r as [rid f lr nr act]; cbn [frequency]; unfold is_due.
  intros [<- | [<- | [<- | []]]].
  - change (next_run (calculate_next_run now (set_last_run (mk_report rid "daily" lr nr act) now)))
      with (next_day now).
    rewrite (proj2 (next_day_after now)); apply andb_false_r.
  - change (next_run (calculate_next_run now (set_last_run (mk_report rid "weekly" lr nr act) now)))
      with (Nat.iter 7 next_day now).
    rewrite (proj2 (iter_next_day_after 7 now ltac:(lia))); apply andb_false_r.
  - change (next_run (calculate_next_run now (set_last_run (mk_report rid "monthly" lr nr act) now)))
      with (sub_days (add_days (replace_day now 28) 4)
                     (dt_day (add_days (replace_day now 28) 4) - 1)).
    rewrite monthly_step_first_of_next_month.
    replace (dt_le _ now) with false; [apply andb_false_r |].
    symmetry; apply dt_le_false; rewrite dt_le_spec.
    destruct (Z.ltb_spec (dt_month now) 12); cbn; lia.
Qed.

Lemma calculate_next_run_unknown (now : datetime) (r : AutomatedReport) :
  ~ In (frequency r) frequency_choices ->
  calculate_next_run now (set_last_run r now) = set_last_run r now.
Proof.
  destruct r as [rid f lr nr act]; cbn [frequency]; intros Hf.
  unfold calculate_next_run; cbn [last_run frequency set_last_run].
  destruct (String.eqb_spec f "daily"); [subst; cbn in Hf; tauto |].
  destruct (String.eqb_spec f "weekly"); [subst; cbn in Hf; tauto |].
  destruct (String.eqb_spec f "monthly"); [subst; cbn in Hf; tauto |].
  reflexivity.
Qed.

(** ** Extra properties of [generate_scheduled_reports_task] *)

Lemma scheduled_reports_rowwise (generate_report : AutomatedReport -> option exn)
  (now : datetime) (rs : list AutomatedReport) :
  List.NoDup (map report_id rs) ->
  lo_state (generate_scheduled_reports_task generate_report now rs)
  = map (report_after_run generate_report now) rs.
Proof.
  intros Hnd; unfold generate_scheduled_reports_task, due_reports.
  rewrite reports_loop_state by (apply ids_filter_nodup, Hnd).
  apply map_ext_in; intros x Hx.
  rewrite (find_due_row now rs x Hnd Hx); unfold report_after_run.
  destruct (is_due now x); reflexivity.
Qed.

(** With distinct report ids, a run updates the rows independently: each
    row becomes [report_after_run] of itself.  A report that is not due,
    or whose generation raises, is left as it was; the failure of one
    report does not affect the others. *)
Theorem X_scheduled_reports_rowwise (generate_report : AutomatedReport -> option exn)
  (now : datetime) (rs : list AutomatedReport) :
  List.NoDup (map report_id rs) ->
  lo_state (generate_scheduled_reports_task generate_report now rs)
  = map (report_after_run generate_report now) rs.
Proof. exact (scheduled_reports_rowwise generate_report now rs). Qed.

Lemma X_scheduled_reports_rowwise_witness :
  List.NoDup (map report_id [mk_report 1 "daily" None (mk_datetime 2024 1 1 0) true;
                              mk_report 2 "weekly" None (mk_datetime 2024 3 1 0) true]) /\
  lo_state (generate_scheduled_reports_task (fun r => if Nat.eqb (report_id r) 1
                                                     then Some (Exception "smtp") else None)
              (mk_datetime 2024 2 1 0)
              [mk_report 1 "daily" None (mk_datetime 2024 1 1 0) true;
               mk_report 2 "weekly" None (mk_datetime 2024 3 1 0) true])
  = map (report_after_run (fun r => if Nat.eqb (report_id r) 1
                                   then Some (Exception "smtp") else None)
           (mk_datetime 2024 2 1 0))
        [mk_report 1 "daily" None (mk_datetime 2024 1 1 0) true;
         mk_report 2 "weekly" None (mk_datetime 2024 3 1 0) true].
Proof.
  assert (H : List.NoDup (map report_id [mk_report 1 "daily" None (mk_datetime 2024 1 1 0) true;
                                          mk_report 2 "weekly" None (mk_datetime 2024 3 1 0) true]))
    by (cbn; constructor; [intros [H | []]; discriminate H | constructor; [intros [] | constructor]]).
  split; [exact H | exact (X_scheduled_reports_rowwise _ _ _ H)].
Defined.

(** After a run at [now], a row that is still due at [now] comes from a
    report that was due and either raised during generation or has a
    [frequency] outside the field's choices: a successful daily, weekly or
    monthly report always moves its [next_run] past [now]. *)
Theorem X_after_run_due_only_if_failed_or_unknown
  (generate_report : AutomatedReport -> option exn) (now : datetime)
  (rs : list AutomatedReport) (r' : AutomatedReport) :
  List.NoDup (map report_id rs) ->
  In r' (lo_state (generate_scheduled_reports_task generate_report now rs)) ->
  is_due now r' = true ->
  exists r, In r rs /\ report_id r' = report_id r /\ is_due now r = true /\
            ((exists e, generate_report r = Some e) \/ ~ In (frequency r) frequency_choices).
Proof.
  intros Hnd Hin Hdue; rewrite (scheduled_reports_rowwise _ _ _ Hnd) in Hin.
  apply in_map_iff in Hin as [r [<- Hr]]; exists r; split; [exact Hr |].
  unfold report_after_run in *.
  destruct (is_due now r) eqn:Hd; [| congruence].
  destruct (generate_report r) as [e |] eqn:Hg.
  - split; [reflexivity | split; [reflexivity | left; exists e; reflexivity]].
  - split; [rewrite report_id_calculate_next_run; reflexivity |].
    split; [reflexivity | right; intros Hf].
    rewrite (calculate_next_run_known_not_due now r Hf) in Hdue; discriminate.
Qed.

Lemma X_after_run_due_only_if_failed_or_unknown_witness :
  List.NoDup (map report_id [mk_report 1 "daily" None (mk_datetime 2024 1 1 0) true;
                              mk_report 2 "yearly" None (mk_datetime 2024 1 1 0) true]) /\
  In (mk_report 2 "yearly" (Some (mk_datetime 2024 2 1 0)) (mk_datetime 2024 1 1 0) true)
     (lo_state (generate_scheduled_reports_task (fun _ => None) (mk_datetime 2024 2 1 0)
                  [mk_report 1 "daily" None (mk_datetime 2024 1 1 0) true;
                   mk_report 2 "yearly" None (mk_datetime 2024 1 1 0) true])) /\
  is_due (mk_datetime 2024 2 1 0)
    (mk_report 2 "yearly" (Some (mk_datetime 2024 2 1 0)) (mk_datetime 2024 1 1 0) true) = true /\
  exists r, In r [mk_report 1 "daily" None (mk_datetime 2024 1 1 0) true;
                  mk_report 2 "yearly" None (mk_datetime 2024 1 1 0) true] /\
            report_id (mk_report 2 "yearly" (Some (mk_datetime 2024 2 1 0))
                         (mk_datetime 2024 1 1 0) true) = report_id r /\
            is_due (mk_datetime 2024 2 1 0) r = true /\
            ((exists e, (fun _ : AutomatedReport => @None exn) r = Some e) \/
             ~ In (frequency r) frequency_choices).
Proof.
  assert (H1 : List.NoDup (map report_id [mk_report 1 "daily" None (mk_datetime 2024 1 1 0) true;
                                           mk_report 2 "yearly" None (mk_datetime 2024 1 1 0) true]))
    by (cbn; constructor; [intros [H | []]; discriminate H | constructor; [intros [] | constructor]]).
  assert (H2 : In (mk_report 2 "yearly" (Some (mk_datetime 2024 2 1 0)) (mk_datetime 2024 1 1 0) true)
     (lo_state (generate_scheduled_reports_task (fun _ => None) (mk_datetime 2024 2 1 0)
                  [mk_report 1 "daily" None (mk_datetime 2024 1 1 0) true;
                   mk_report 2 "yearly" None (mk_datetime 2024 1 1 0) true])))
    by (vm_compute; right; left; reflexivity).
  assert (H3 : is_due (mk_datetime 2024 2 1 0)
    (mk_report 2 "yearly" (Some (mk_datetime 2024 2 1 0)) (mk_datetime 2024 1 1 0) true) = true)
    by reflexivity.
  split; [exact H1 | split; [exact H2 | split; [exact H3 |]]].
  exact (X_after_run_due_only_if_failed_or_unknown (fun _ => None) _ _ _ H1 H2 H3).
Defined.

(** A due report with a [frequency] outside the choices whose generation
    succeeds is saved with [last_run = now] and its [next_run] unchanged,
    so it is still due and is generated again on every later run. *)
Theorem X_unknown_frequency_report_stays_due
  (generate_report : AutomatedReport -> option exn) (now : datetime)
  (rs : list AutomatedReport) (r : AutomatedReport) :
  List.NoDup (map report_id rs) -> In r rs -> is_due now r = true ->
  generate_report r = None -> ~ In (frequency r) frequency_choices ->
  In (set_last_run r now) (lo_state (generate_scheduled_reports_task generate_report now rs)) /\
  next_run (set_last_run r now) = next_run r /\
  is_due now (set_last_run r now) = true.
Proof.
  intros Hnd Hr Hd Hg Hf; rewrite (scheduled_reports_rowwise _ _ _ Hnd).
  split; [| split; [reflexivity | exact Hd]].
  apply in_map_iff; exists r; split; [| exact Hr].
  unfold report_after_run; rewrite Hd, Hg; apply calculate_next_run_unknown, Hf.
Qed.

Lemma X_unknown_frequency_report_stays_due_witness :
  List.NoDup (map report_id [mk_report 2 "yearly" None (mk_datetime 2024 1 1 0) true]) /\
  In (mk_report 2 "yearly" None (mk_datetime 2024 1 1 0) true)
     [mk_report 2 "yearly" None (mk_datetime 2024 1 1 0) true] /\
  is_due (mk_datetime 2024 2 1 0) (mk_report 2 "yearly" None (mk_datetime 2024 1 1 0) true) = true /\
  (fun _ : AutomatedReport => @None exn) (mk_report 2 "yearly" None (mk_datetime 2024 1 1 0) true)
    = None /\
  ~ In (frequency (mk_report 2 "yearly" None (mk_datetime 2024 1 1 0) true)) frequency_choices /\
  is_due (mk_datetime 2024 2 1 0)
    (set_last_run (mk_report 2 "yearly" None (mk_datetime 2024 1 1 0) true)
       (mk_datetime 2024 2 1 0)) = true.
Proof.
  assert (H1 : List.NoDup (map report_id [mk_report 2 "yearly" None (mk_datetime 2024 1 1 0) true]))
    by (constructor; [intros [] | constructor]).
  assert (H2 : In (mk_report 2 "yearly" None (mk_datetime 2024 1 1 0) true)
                  [mk_report 2 "yearly" None (mk_datetime 2024 1 1 0) true])
    by (left; reflexivity).
  assert (H3 : is_due (mk_datetime 2024 2 1 0)
                 (mk_report 2 "yearly" None (mk_datetime 2024 1 1 0) true) = true)
    by reflexivity.
  assert (H4 : (fun _ : AutomatedReport => @None exn)
                 (mk_report 2 "yearly" None (mk_datetime 2024 1 1 0) true) = None)
    by reflexivity.
  assert (H5 : ~ In (frequency (mk_report 2 "yearly" None (mk_datetime 2024 1 1 0) true))
                    frequency_choices)
    by (vm_compute; intros [H | [H | [H | []]]]; discriminate H).
  do 5 (split; [assumption |]).
  exact (proj2 (proj2 (X_unknown_frequency_report_stays_due (fun _ => None) _ _ _ H1 H2 H3 H4 H5))).
Defined.

(** ** Extra properties of [RetentionCohort.calculate_retention_rate] *)

(** When [0 <= retained_users <= total_users], the method never raises and
    both the stored and the returned rate are a percentage in [[0, 100]]. *)
Theorem X_retention_rate_is_percentage (self : RetentionCohort) :
  0 <= retained_users self <= total_users self ->
  exists c, calculate_retention_rate self = Some (c, retention_rate c) /\
            total_users c = total_users self /\ retained_users c = retained_users self /\
            Qle 0 (retention_rate c) /\ Qle (retention_rate c) 100.
Proof.
  destruct self as [t r q]; cbn [total_users retained_users]; intros H.
  unfold calculate_retention_rate, py_true_div; cbn [total_users retained_users].
  destruct (Z.ltb_spec 0 t).
  - rewrite (proj2 (Z.eqb_neq t 0)) by lia.
    exists (mk_cohort t r (Qmult (Qdiv (inject_Z r) (inject_Z t)) 100)).
    split; [reflexivity |]; cbn [total_users retained_users retention_rate].
    destruct t as [| p | p]; try lia.
    split; [reflexivity | split; [reflexivity |]].
    split; unfold Qle; cbn; lia.
  - exists (mk_cohort t r 0); split; [reflexivity |]; cbn [total_users retained_users retention_rate].
    split; [reflexivity | split; [reflexivity |]].
    split; unfold Qle; cbn; lia.
Qed.

Lemma X_retention_rate_is_percentage_witness :
  0 <= retained_users (mk_cohort 8 3 0) <= total_users (mk_cohort 8 3 0) /\
  exists c, calculate_retention_rate (mk_cohort 8 3 0) = Some (c, retention_rate c) /\
            total_users c = 8 /\ retained_users c = 3 /\
            Qle 0 (retention_rate c) /\ Qle (retention_rate c) 100.
Proof.
  assert (H : 0 <= retained_users (mk_cohort 8 3 0) <= total_users (mk_cohort 8 3 0))
    by (cbn; lia).
  split; [exact H | exact (X_retention_rate_is_percentage (mk_cohort 8 3 0) H)].
Defined.

(** The rate is not clamped: more retained than total users gives a
    stored rate above 100. *)
Theorem X_retention_rate_not_clamped (self : RetentionCohort) :
  0 < total_users self < retained_users self ->
  exists c, calculate_retention_rate self = Some (c, retention_rate c) /\
            Qlt 100 (retention_rate c).
Proof.
  destruct self as [t r q]; cbn [total_users retained_users]; intros H.
  unfold calculate_retention_rate, py_true_div; cbn [total_users retained_users].
  rewrite (proj2 (Z.ltb_lt 0 t)) by lia; rewrite (proj2 (Z.eqb_neq t 0)) by lia.
  exists (mk_cohort t r (Qmult (Qdiv (inject_Z r) (inject_Z t)) 100)).
  split; [reflexivity |]; cbn [retention_rate].
  destruct t as [| p | p]; try lia.
  unfold Qlt; cbn; lia.
Qed.

Lemma X_retention_rate_not_clamped_witness :
  0 < total_users (mk_cohort 4 5 0) < retained_users (mk_cohort 4 5 0) /\
  exists c, calculate_retention_rate (mk_cohort 4 5 0) = Some (c, retention_rate c) /\
            Qlt 100 (retention_rate c).
Proof.
  assert (H : 0 < total_users (mk_cohort 4 5 0) < retained_users (mk_cohort 4 5 0))
    by (cbn; lia).
  split; [exact H | exact (X_retention_rate_not_clamped (mk_cohort 4 5 0) H)].
Defined.

(** ** Extra properties of [UserSession] *)

(** [end_session] closes the session at its first [timezone.now()]: the
    second one is not used, the stored duration is [logout_at - login_at],
    and recomputing it at any later time returns it and changes nothing. *)
Theorem X_end_session_settles_duration (now1 now2 now3 : Z) (s : UserSession) :
  logout_at (end_session now1 now2 s) = Some now1 /\
  session_is_active (end_session now1 now2 s) = false /\
  session_duration (end_session now1 now2 s) = Some (now1 - login_at s) /\
  calculate_duration now3 (end_session now1 now2 s)
  = (end_session now1 now2 s, now1 - login_at s).
Proof. repeat split. Qed.

(** ** Extra properties of [UserBehaviorMetrics.update_metrics] *)

Lemma fold_max_bounds_by {A : Type} (f : A -> Z) (l : list A) (m : Z) :
  m <= fold_left (fun m t => Z.max m (f t)) l m /\
  (forall t, In t l -> f t <= fold_left (fun m t => Z.max m (f t)) l m) /\
  (fold_left (fun m t => Z.max m (f t)) l m = m \/
   exists t, In t l /\ fold_left (fun m t => Z.max m (f t)) l m = f t).
Proof.
  revert m; induction l as [| a l IH]; intros m; cbn.
  - split; [lia | split; [tauto | left; reflexivity]].
  - destruct (IH (Z.max m (f a))) as [H1 [H2 H3]].
    split; [lia |]; split.
    + intros t [<- | Ht]; [lia | exact (H2 t Ht)].
    + destruct H3 as [H3 | [t [Ht H3]]]; [| right; exists t; auto].
      destruct (Z.max_spec m (f a)) as [[_ Hm] | [_ Hm]]; rewrite Hm in *.
      * right; exists a; auto.
      * left; exact H3.
Qed.

Lemma fold_min_bounds_by {A : Type} (f : A -> Z) (l : list A) (m : Z) :
  fold_left (fun m t => Z.min m (f t)) l m <= m /\
  (forall t, In t l -> fold_left (fun m t => Z.min m (f t)) l m <= f t) /\
  (fold_left (fun m t => Z.min m (f t)) l m = m \/
   exists t, In t l /\ fold_left (fun m t => Z.min m (f t)) l m = f t).
Proof.
  revert m; induction l as [| a l IH]; intros m; cbn.
  - split; [lia | split; [tauto | left; reflexivity]].
  - destruct (IH (Z.min m (f a))) as [H1 [H2 H3]].
    split; [lia |]; split.
    + intros t [<- | Ht]; [lia | exact (H2 t Ht)].
    + destruct H3 as [H3 | [t [Ht H3]]]; [| right; exists t; auto].
      destruct (Z.min_spec m (f a)) as [[_ Hm] | [_ Hm]]; rewrite Hm in *.
      * left; exact H3.
      * right; exists a; auto.
Qed.

Lemma update_metrics_logins (now : Z) (s0 : UserSession) (rest : list UserSession)
  (wcs : list WalletConnection) (self : UserBehaviorMetrics) :
  first_login (update_metrics now (s0 :: rest) wcs self)
  = fold_left (fun m s => Z.min m (login_at s)) rest (login_at s0) /\
  last_login (update_metrics now (s0 :: rest) wcs self)
  = fold_left (fun m s => Z.max m (login_at s)) rest (login_at s0).
Proof.
  unfold update_metrics.
  destruct (List.filter is_completed (s0 :: rest)), (connections_with "success" wcs);
    split; reflexivity.
Qed.

Lemma update_metrics_wallet (now : Z) (s0 : UserSession) (rest : list UserSession)
  (wcs : list WalletConnection) (self : UserBehaviorMetrics) :
  preferred_wallet (update_metrics now (s0 :: rest) wcs self)
  = match connections_with "success" wcs with
    | [] => preferred_wallet self
    | succ => match py_max_key (count_providers succ) with
              | Some k => k
              | None => preferred_wallet self
              end
    end /\
  successful_wallet_connections (update_metrics now (s0 :: rest) wcs self)
  = match connections_with "success" wcs with
    | [] => successful_wallet_connections self
    | succ => length succ
    end /\
  failed_wallet_connections (update_metrics now (s0 :: rest) wcs self)
  = match connections_with "success" wcs with
    | [] => failed_wallet_connections self
    | _ => length (connections_with "failed" wcs)
    end.
Proof.
  unfold update_metrics.
  destruct (List.filter is_completed (s0 :: rest)), (connections_with "success" wcs);
    repeat split.
Qed.






(** [first_login] and [last_login] are the earliest and the latest
    [login_at] of the user's sessions. *)
Theorem X_update_metrics_login_range (now : Z) (sessions : list UserSession)
  (wcs : list WalletConnection) (self : UserBehaviorMetrics) :
  sessions <> [] ->
  (forall s, In s sessions ->
     first_login (update_metrics now sessions wcs self) <= login_at s <=
     last_login (update_metrics now sessions wcs self)) /\
  (exists s, In s sessions /\ login_at s = first_login (update_metrics now sessions wcs self)) /\
  (exists s, In s sessions /\ login_at s = last_login (update_metrics now sessions wcs self)).
Proof.
  destruct sessions as [| s0 rest]; [contradiction | intros _].
  destruct (update_metrics_logins now s0 rest wcs self) as [-> ->].
  destruct (fold_min_bounds_by login_at rest (login_at s0)) as [Hm1 [Hm2 Hm3]].
  destruct (fold_max_bounds_by login_at rest (login_at s0)) as [HM1 [HM2 HM3]].
  split; [| split].
  - intros s [<- | Hs]; [lia | split; [exact (Hm2 s Hs) | exact (HM2 s Hs)]].
  - destruct Hm3 as [Hm3 | [t [Ht Hm3]]].
    + exists s0; split; [left; reflexivity | symmetry; exact Hm3].
    + exists t; split; [right; exact Ht | symmetry; exact Hm3].
  - destruct HM3 as [HM3 | [t [Ht HM3]]].
    + exists s0; split; [left; reflexivity | symmetry; exact HM3].
    + exists t; split; [right; exact Ht | symmetry; exact HM3].
Qed.

Lemma X_update_metrics_login_range_witness :
  [mk_session 500 None None true; mk_session 100 (Some 200) None false] <> [] /\
  (forall s, In s [mk_session 500 None None true; mk_session 100 (Some 200) None false] ->
     first_login (update_metrics 900 [mk_session 500 None None true;
                                      mk_session 100 (Some 200) None false] []
                    (mk_metrics 0 0 0 0 0 0 false "" 0 0)) <= login_at s <=
     last_login (update_metrics 900 [mk_session 500 None None true;
                                     mk_session 100 (Some 200) None false] []
                   (mk_metrics 0 0 0 0 0 0 false "" 0 0))) /\
  (exists s, In s [mk_session 500 None None true; mk_session 100 (Some 200) None false] /\
     login_at s = first_login (update_metrics 900 [mk_session 500 None None true;
                                                   mk_session 100 (Some 200) None false] []
                                 (mk_metrics 0 0 0 0 0 0 false "" 0 0))) /\
  (exists s, In s [mk_session 500 None None true; mk_session 100 (Some 200) None false] /\
     login_at s = last_login (update_metrics 900 [mk_session 500 None None true;
                                                  mk_session 100 (Some 200) None false] []
                                (mk_metrics 0 0 0 0 0 0 false "" 0 0))).
Proof.
  assert (H : [mk_session 500 None None true; mk_session 100 (Some 200) None false] <> [])
    by discriminate.
  split; [exact H | exact (X_update_metrics_login_range 900 _ [] _ H)].
Defined.



(** Without a successful connection the three wallet fields keep their
    previous values: [failed_wallet_connections] is not refreshed, however
    many failed connections the user has. *)
Theorem X_no_success_keeps_wallet_fields (now : Z) (sessions : list UserSession)
  (wcs : list WalletConnection) (self : UserBehaviorMetrics) :
  connections_with "success" wcs = [] ->
  preferred_wallet (update_metrics now sessions wcs self) = preferred_wallet self /\
  successful_wallet_connections (update_metrics now sessions wcs self)
  = successful_wallet_connections self /\
  failed_wallet_connections (update_metrics now sessions wcs self)
  = failed_wallet_connections self.
Proof.
  intros Hs; destruct sessions as [| s0 rest]; [repeat split |].
  destruct (update_metrics_wallet now s0 rest wcs self) as [H1 [H2 H3]].
  rewrite Hs in H1, H2, H3; auto.
Qed.

Lemma X_no_success_keeps_wallet_fields_witness :
  connections_with "success" [mk_connection "metamask" "failed"] = [] /\
  length (connections_with "failed" [mk_connection "metamask" "failed"]) = 1%nat /\
  failed_wallet_connections
    (update_metrics 900 [mk_session 100 (Some 200) None false]
       [mk_connection "metamask" "failed"] (mk_metrics 0 0 0 0 0 0 false "" 0 0)) = 0%nat.
Proof.
  assert (H : connections_with "success" [mk_connection "metamask" "failed"] = [])
    by reflexivity.
  split; [exact H | split; [reflexivity |]].
  exact (proj2 (proj2 (X_no_success_keeps_wallet_fields 900
                         [mk_session 100 (Some 200) None false] _
                         (mk_metrics 0 0 0 0 0 0 false "" 0 0) H))).
Defined.



(** ** Extra properties of the duration columns of admin.py *)



(** "Active" is shown exactly for a session with no stored duration or a
    zero one, so a closed session of zero length also shows "Active". *)
Theorem X_duration_display_active_iff (d : option Z) :
  session_duration_display d = Text "Active" <-> d = None \/ d = Some 0.
Proof.
  unfold session_duration_display; destruct d as [us |].
  - destruct (Z.eqb_spec us 0) as [-> | Hne].
    + split; [right; reflexivity | reflexivity].
    + unfold hms_of; split; [discriminate | intros [H | H]; [discriminate | congruence]].
  - split; [left; reflexivity | reflexivity].
Qed.

(** ** Extra properties of [cleanup_temp_files] *)

Lemma cleanup_state_spec (remove_fails : string -> bool) (paths : list string)
  (fs : gset string) (n : nat) (f : string) :
  f ∈ fst (lo_state (for_each_guarded (cleanup_body remove_fails) paths (fs, n)))
  <-> f ∈ fs /\ ~ deleted_by_cleanup remove_fails paths f.
Proof.
  unfold deleted_by_cleanup.
  revert fs n; induction paths as [| p ps IH]; intros fs n; cbn [for_each_guarded].
  - cbn [lo_state fst In]; tauto.
  - change (cleanup_body remove_fails p (fs, n))
      with (if bool_decide (p ∈ fs) && py_contains "temp_" (basename p)
            then if remove_fails p then ((fs, n), Some (Exception "remove failed"))
                 else ((fs ∖ {[p]}, S n), None)
            else ((fs, n), None)).
    destruct (bool_decide (p ∈ fs)) eqn:Hp; destruct (py_contains "temp_" (basename p)) eqn:Ht;
      cbn [andb]; [destruct (remove_fails p) eqn:Hrf |  |  | ];
      cbn [lo_state]; rewrite IH; cbn [In];
      [apply bool_decide_eq_true in Hp | apply bool_decide_eq_true in Hp
      | apply bool_decide_eq_true in Hp | apply bool_decide_eq_false in Hp
      | apply bool_decide_eq_false in Hp].
    + destruct (decide (f = p)) as [-> | Hne]; [rewrite Ht, Hrf |]; intuition congruence.
    + rewrite elem_of_difference, elem_of_singleton.
      destruct (decide (f = p)) as [-> | Hne]; [rewrite Ht, Hrf |]; intuition congruence.
    + destruct (decide (f = p)) as [-> | Hne]; [rewrite Ht |]; intuition congruence.
    + destruct (decide (f = p)) as [-> | Hne]; intuition congruence.
    + destruct (decide (f = p)) as [-> | Hne]; intuition congruence.
Qed.

(** The files left are the existing files except those that are listed,
    have "temp_" in their base name, and whose removal succeeds: a file
    whose base name lacks "temp_" (even in a "temp_" directory) is never
    removed, and a failed removal does not stop the loop. *)
Theorem X_cleanup_removes_exactly_listed_temp (remove_fails : string -> bool)
  (file_paths : list string) (fs : gset string) (f : string) :
  f ∈ fst (cleanup_temp_files remove_fails file_paths fs)
  <-> f ∈ fs /\ ~ deleted_by_cleanup remove_fails file_paths f.
Proof. apply cleanup_state_spec. Qed.

Lemma cleanup_count_acc (remove_fails : string -> bool) (paths : list string)
  (fs : gset string) (n : nat) :
  (snd (lo_state (for_each_guarded (cleanup_body remove_fails) paths (fs, n)))
   + size (fst (lo_state (for_each_guarded (cleanup_body remove_fails) paths (fs, n)))))%nat
  = (n + size fs)%nat.
Proof.
  revert fs n; induction paths as [| p ps IH]; intros fs n; cbn [for_each_guarded].
  - reflexivity.
  - change (cleanup_body remove_fails p (fs, n))
      with (if bool_decide (p ∈ fs) && py_contains "temp_" (basename p)
            then if remove_fails p then ((fs, n), Some (Exception "remove failed"))
                 else ((fs ∖ {[p]}, S n), None)
            else ((fs, n), None)).
    destruct (bool_decide (p ∈ fs)) eqn:Hp; destruct (py_contains "temp_" (basename p));
      cbn [andb]; [destruct (remove_fails p) |  |  | ]; cbn [lo_state]; rewrite ?IH;
      try reflexivity.
    apply bool_decide_eq_true in Hp.
    assert (Hsub : {[p]} ⊆ fs) by set_solver.
    rewrite size_difference by exact Hsub; rewrite size_singleton.
    pose proof (subseteq_size _ _ Hsub) as Hle; rewrite size_singleton in Hle; lia.
Qed.

(** The returned [files_cleaned] is the number of files actually deleted:
    a path listed twice, or one whose removal fails, is not counted. *)
Theorem X_cleanup_count_is_files_deleted (remove_fails : string -> bool)
  (file_paths : list string) (fs : gset string) :
  (snd (cleanup_temp_files remove_fails file_paths fs)
   + size (fst (cleanup_temp_files remove_fails file_paths fs)))%nat = size fs.
Proof. exact (cleanup_count_acc remove_fails file_paths fs 0). Qed.

(** ** Further composition properties *)



(** Composing [end_session] with the admin column: an ended session shows
    "Active" exactly when it ended at the instant it started. *)
Theorem X_ended_session_display_active_iff (now1 now2 : Z) (s : UserSession) :
  session_duration_display (session_duration (end_session now1 now2 s)) = Text "Active"
  <-> now1 = login_at s.
Proof.
  change (session_duration (end_session now1 now2 s)) with (Some (now1 - login_at s)).
  unfold session_duration_display.
  destruct (Z.eqb_spec (now1 - login_at s) 0).
  - split; [lia | reflexivity].
  - unfold hms_of; split; [discriminate | lia].
Qed.

Lemma update_metrics_days (now : Z) (s0 : UserSession) (rest : list UserSession)
  (wcs : list WalletConnection) (self : UserBehaviorMetrics) :
  days_since_first_login (update_metrics now (s0 :: rest) wcs self)
  = date_of now - date_of (fold_left (fun m s => Z.min m (login_at s)) rest (login_at s0)).
Proof.
  unfold update_metrics.
  destruct (List.filter is_completed (s0 :: rest)), (connections_with "success" wcs);
    reflexivity.
Qed.

(** [days_since_first_login] is never negative once some session started
    no later than [now]. *)
Theorem X_days_since_first_login_nonneg (now : Z) (sessions : list UserSession)
  (wcs : list WalletConnection) (self : UserBehaviorMetrics) :
  (exists s, In s sessions /\ login_at s <= now) ->
  0 <= days_since_first_login (update_metrics now sessions wcs self).
Proof.
  intros [s [Hs Hle]].
  destruct sessions as [| s0 rest]; [destruct Hs |].
  rewrite update_metrics_days.
  destruct (fold_min_bounds_by login_at rest (login_at s0)) as [H1 [H2 _]].
  assert (Hf : fold_left (fun m s => Z.min m (login_at s)) rest (login_at s0) <= now).
  { destruct Hs as [<- | Hs]; [lia | specialize (H2 s Hs); lia]. }
  unfold date_of.
  pose proof (Z.div_le_mono _ _ microseconds_per_day ltac:(unfold microseconds_per_day; lia) Hf).
  lia.
Qed.

Lemma X_days_since_first_login_nonneg_witness :
  (exists s, In s [mk_session 100 (Some 200) None false] /\ login_at s <= 900) /\
  0 <= days_since_first_login (update_metrics 900 [mk_session 100 (Some 200) None false] []
                                 (mk_metrics 0 0 0 0 0 0 false "" 0 0)).
Proof.
  assert (H : exists s, In s [mk_session 100 (Some 200) None false] /\ login_at s <= 900).
  { exists (mk_session 100 (Some 200) None false); split; [left; reflexivity | cbn; lia]. }
  split; [exact H | exact (X_days_since_first_login_nonneg 900 _ [] _ H)].
Defined.


